(** * CANDLE checkpoint/restart utilities (common/ckpt_keras_utils.py)

    A shallow embedding of the checkpoint callback, the restart loader, the
    parameter resolver and the streaming checksum, followed by the
    properties established about them.

    Conventions of the embedding
    - a Python [dict] with string keys whose order is irrelevant
      ([gParameters], the JSON descriptor) is a [gmap string pyval];
      the per-epoch [logs] dict keeps its insertion order (its keys are
      printed in an error message) and is an association list;
    - a Python [float] is an IEEE-754 value, [spec_float], compared with
      [SFltb]; an [int] is a [Z]; [bytes] are [list byte];
    - an exception is a value of [exn]; a function that may raise returns a
      [result];
    - the logger of the callback is part of the model where the code uses it
      unguarded ([checksum_file] calls [logger.info] on whatever it is given);
      the calls guarded by [if self.logger is not None] and the text of the
      log lines are not, they have no effect on any value computed here;
    - the environment is taken to be one where a file operation takes time:
      the two readings of [time.time()] around it differ, so that the
      throughput [MB / duration] computed for the log lines is defined. *)

From Stdlib Require Import ZArith List Lia Bool.
From Stdlib Require Import Strings.String Strings.Ascii Init.Byte.
From Stdlib Require Import Floats.SpecFloat.
From stdpp Require Import base option gmap strings list fin_maps pretty.
From Equations Require Import Equations.

Local Open Scope string_scope.
Local Open Scope Z_scope.

(** ** Python values *)

(** The scalar values that occur in [gParameters] and in the JSON descriptor. *)
Inductive pyval : Type :=
| PNone
| PBool (b : bool)
| PInt (z : Z)
| PFloat (f : spec_float)
| PStr (s : string).

(** [bool(v)]: Python truth value testing. *)
Definition truthy (v : pyval) : bool :=
  match v with
  | PNone => false
  | PBool b => b
  | PInt z => negb (z =? 0)
  | PFloat (S754_zero _) => false
  | PFloat _ => true
  | PStr s => negb (String.eqb s EmptyString)
  end.

(** [math.inf] *)
Definition math_inf : spec_float := S754_infinity false.

(** [x < y] on floats. *)
Definition float_lt (x y : spec_float) : bool := SFltb x y.

(** Exceptions raised by the code or by the library calls it makes. *)
Inductive exn : Type :=
| Exception (msg : string)
| TypeError (msg : string)
| ValueError (msg : string)
| OverflowError (msg : string)
| AttributeError (name : string)
| KeyError (key : string)
| FileNotFoundError (path : string)
| FileExistsError (path : string)
| OSError (path : string)
| JSONDecodeError (path : string).

Inductive result (A : Type) : Type :=
| Ok (a : A)
| Raise (e : exn).
Arguments Ok {A} a.
Arguments Raise {A} e.

Definition bind {A B} (r : result A) (k : A -> result B) : result B :=
  match r with
  | Ok a => k a
  | Raise e => Raise e
  end.

Declare Scope result_scope.
Delimit Scope result_scope with result.
Notation "x <- c ;; k" := (bind c (fun x => k))
  (at level 100, c at next level, right associativity) : result_scope.

(** ** String formatting *)

(** [fmt % args] restricted to the [%s] conversion, the only one used in the
    messages of raised exceptions.  [percent_go] copies the format and replaces
    each [%s] by the next argument; it returns the arguments left over. *)
Fixpoint percent_go (fmt : string) (args : list string)
  : option (string * list string) :=
  match fmt with
  | EmptyString => Some (EmptyString, args)
  | String "%" (String "s" rest) =>
      match args with
      | [] => None
      | a :: args' =>
          match percent_go rest args' with
          | Some (out, args'') => Some (a +:+ out, args'')
          | None => None
          end
      end
  | String c rest =>
      match percent_go rest args with
      | Some (out, args') => Some (String c out, args')
      | None => None
      end
  end.

Definition percent (fmt : string) (args : list string) : result string :=
  match percent_go fmt args with
  | None => Raise (TypeError "not enough arguments for format string")
  | Some (out, []) => Ok out
  | Some (_, _ :: _) =>
      Raise (TypeError "not all arguments converted during string formatting")
  end.

(** ** Parameter resolver *)

(** [enabled]: [key in gParameters and gParameters[key]].  Python's [and]
    yields its first operand when that is falsy and its second otherwise, so
    the stored value itself is returned for a key that is present. *)
Definition enabled (gParameters : gmap string pyval) (key : string) : pyval :=
  match gParameters !! key with
  | None => PBool false
  | Some v => v
  end.

(** [disabled]: [key in gParameters and not gParameters[key]]. *)
Definition disabled (gParameters : gmap string pyval) (key : string) : bool :=
  match gParameters !! key with
  | None => false
  | Some v => negb (truthy v)
  end.

Definition param (gParameters : gmap string pyval) (key : string)
  (dflt : pyval) : pyval :=
  match gParameters !! key with
  | Some v => v
  | None => dflt
  end.

(** ** Checksum *)

Module zlib.

(** The reflected CRC-32 polynomial of zlib. *)
Definition poly : Z := 0xEDB88320.
Definition mask32 : Z := 0xFFFFFFFF.

Definition byte_val (b : byte) : Z := Z.of_N (Byte.to_N b).

(** One bit of the shift register. *)
Definition crc_bit (c : Z) : Z :=
  if Z.testbit c 0 then Z.lxor (Z.shiftr c 1) poly else Z.shiftr c 1.

(** One byte: xor it into the low byte, then shift eight times. *)
Definition crc_byte (c : Z) (b : byte) : Z :=
  Nat.iter 8 crc_bit (Z.lxor c (byte_val b)).

(** [zlib.crc32(data, value)]: the running checksum [value] is taken as an
    unsigned 32-bit quantity, conditioned before and after the update. *)
Definition crc32 (data : list byte) (value : Z) : Z :=
  Z.lxor (fold_left crc_byte data (Z.lxor (value mod 2 ^ 32) mask32)) mask32.

End zlib.

(** [fp.read(n)] on the unread part [rest] of a file: at most [n] bytes. *)
Fixpoint read_bytes (n : N) (rest : list byte) : list byte :=
  match rest with
  | [] => []
  | b :: rest' => if (n =? 0)%N then [] else b :: read_bytes (N.pred n) rest'
  end.

(** What is still unread after [fp.read(n)]. *)
Fixpoint unread_bytes (n : N) (rest : list byte) : list byte :=
  match rest with
  | [] => []
  | b :: rest' => if (n =? 0)%N then rest else unread_bytes (N.pred n) rest'
  end.

Lemma unread_bytes_length n rest :
  (length (unread_bytes n rest) <= length rest)%nat.
Proof.
  revert n; induction rest as [|b rest IH]; intros n; simpl; [lia|].
  destruct (n =? 0)%N; simpl; [lia|]. specialize (IH (N.pred n)). lia.
Qed.

Definition inspect {A} (a : A) : {b : A | a = b} := exist _ a eq_refl.

(** The [while True] loop of [checksum_file]: read a chunk, stop on an empty
    one, otherwise fold it into the running checksum. *)
Equations? checksum_loop (chunk_size : N) (rest : list byte) (checksum : Z)
  : Z by wf (length rest) lt :=
  checksum_loop chunk_size rest checksum with inspect (read_bytes chunk_size rest) => {
    | exist _ [] _ := checksum;
    | exist _ (b :: chunk) Heq :=
        checksum_loop chunk_size (unread_bytes chunk_size rest)
          (zlib.crc32 (b :: chunk) checksum) }.
Proof.
  destruct rest as [|b0 rest]; simpl in *; [discriminate|].
  destruct (chunk_size =? 0)%N; [discriminate|].
  pose proof (unread_bytes_length (N.pred chunk_size) rest). lia.
Qed.

(** [chunk_size = 10*1024*1024] *)
Definition chunk_size : N := (10 * 1024 * 1024)%N.

(** [checksum_file] on a file whose contents are [contents]: the accumulator
    starts at 0 and the result is [str(checksum)]. *)
Definition checksum_file (contents : list byte) : string :=
  pretty (checksum_loop chunk_size contents 0).

(** ** The file system under [save/] *)

(** A text file either holds a JSON object, represented by the dict that
    [json.load] returns for it, or something that is not a JSON document
    (such as a file opened for writing whose contents were never written). *)
Inductive text_file : Type :=
| Garbled
| JsonDoc (J : gmap string pyval).

(** A checkpoint directory: the two files this module puts in one. *)
Record directory : Type := {
  model_h5 : option (list byte);
  ckpt_info_json : option text_file }.

Definition empty_directory : directory :=
  {| model_h5 := None; ckpt_info_json := None |}.

Definition is_empty (d : directory) : bool :=
  match model_h5 d, ckpt_info_json d with
  | None, None => true
  | _, _ => false
  end.

Definition dir_work : string := "save/ckpt-work".
Definition dir_good : string := "save/ckpt-good".
Definition dir_old : string := "save/ckpt-old".

(** [open(directory + "/model.h5", "rb")] and reading it to the end. *)
Definition read_model_h5 (fs : gmap string directory) (dir : string)
  : result (list byte) :=
  match fs !! dir with
  | Some d =>
      match model_h5 d with
      | Some contents => Ok contents
      | None => Raise (FileNotFoundError (dir +:+ "/model.h5"))
      end
  | None => Raise (FileNotFoundError (dir +:+ "/model.h5"))
  end.

(** ** The checkpoint callback *)

(** A [datetime], with the text that [strftime("%Y-%m-%d %H:%M:%S")] yields. *)
Record datetime : Type := { dt_micros : Z; dt_text : string }.

(** [float(z)] for an integer, and [timedelta.total_seconds()]: the number
    of microseconds divided by [10**6] in binary64. *)
Definition float_of_Z (z : Z) : spec_float := binary_normalize 53 1024 z 0 false.
Definition total_seconds (micros : Z) : spec_float :=
  SFdiv 53 1024 (float_of_Z micros) (float_of_Z 1000000).

(** The per-epoch [logs]: metric name to value, in insertion order. *)
Fixpoint dict_get (logs : list (string * spec_float)) (key : string)
  : option spec_float :=
  match logs with
  | [] => None
  | (k, v) :: logs' => if String.eqb k key then Some v else dict_get logs' key
  end.

Definition join (sep : string) (l : list string) : string :=
  match l with
  | [] => EmptyString
  | x :: l' => fold_left (fun acc y => acc +:+ sep +:+ y) l' x
  end.

(** [str(logs.keys())]; the quoting of a key is rendered without escapes. *)
Definition str_keys (logs : list (string * spec_float)) : string :=
  "dict_keys([" +:+ join ", " (map (fun kv => "'" +:+ fst kv +:+ "'") logs) +:+ "])".

(** A logger object, by the name it was obtained under. *)
Inductive Logger : Type := getLogger (name : string).

(** [logger.info(message)] for a logger that may be [None]. *)
Definition logger_info (logger : option Logger) : result unit :=
  match logger with
  | Some _ => Ok tt
  | None => Raise (AttributeError "info")
  end.

(** [checksum_file(logger, dir + "/model.h5")] on a disk: the file is opened
    and read, its checksum computed by [checksum_file], and the statistics go
    to [logger.info] before the string is returned. *)
Definition checksum_file_at (logger : option Logger)
  (fs : gmap string directory) (dir : string) : result string :=
  match read_model_h5 fs dir with
  | Raise e => Raise e
  | Ok contents =>
      match logger_info logger with
      | Raise e => Raise e
      | Ok _ => Ok (checksum_file contents)
      end
  end.

(** What [self.timestamp_last] holds: the value configured under
    "timestamp_last" ([None] without one), or the [datetime] of the last
    descriptor written. *)
Inductive stamp : Type :=
| StampValue (v : pyval)
| StampTime (d : datetime).

Definition type_name (v : pyval) : string :=
  match v with
  | PNone => "NoneType"
  | PBool _ => "bool"
  | PInt _ => "int"
  | PFloat _ => "float"
  | PStr _ => "str"
  end.

(** [time_elapsed] of [write_json]: "__FIRST__" if [timestamp_last == None],
    else [(now - timestamp_last).total_seconds()], which needs a [datetime]. *)
Definition time_elapsed (last : stamp) (now : datetime) : result pyval :=
  match last with
  | StampValue PNone => Ok (PStr "__FIRST__")
  | StampTime d => Ok (PFloat (total_seconds (dt_micros now - dt_micros d)))
  | StampValue v =>
      Raise (TypeError ("unsupported operand type(s) for -: 'datetime.datetime' and '"
                        +:+ type_name v +:+ "'"))
  end.

Module CandleCheckpointCallback.

(** The instance fields.  [skip_epochs] is an int, [save_best_stat] a string
    and [best_stat_last] a float, as the module documents them; the boolean
    options keep the configured value and are tested for truth where used.
    [model] is the serialised form of the Keras model the callback is
    attached to; [cksum_model] is unset until [checksum] runs; [logger] is
    [None] when logging was disabled at construction. *)
Record t : Type := {
  logger : option Logger;
  skip_epochs : Z;
  save_best_only : pyval;
  save_best_stat : string;
  best_stat_last : spec_float;
  save_weights_only : pyval;
  checksum_enabled : pyval;
  metadata : pyval;
  timestamp_last : stamp;
  clean : pyval;
  cksum_model : option string;
  model : list byte }.

Definition set_best_stat_last (v : spec_float) (self : t) : t :=
  {| logger := logger self;
     skip_epochs := skip_epochs self; save_best_only := save_best_only self;
     save_best_stat := save_best_stat self; best_stat_last := v;
     save_weights_only := save_weights_only self;
     checksum_enabled := checksum_enabled self; metadata := metadata self;
     timestamp_last := timestamp_last self; clean := clean self;
     cksum_model := cksum_model self; model := model self |}.

Definition set_cksum_model (c : string) (self : t) : t :=
  {| logger := logger self;
     skip_epochs := skip_epochs self; save_best_only := save_best_only self;
     save_best_stat := save_best_stat self; best_stat_last := best_stat_last self;
     save_weights_only := save_weights_only self;
     checksum_enabled := checksum_enabled self; metadata := metadata self;
     timestamp_last := timestamp_last self; clean := clean self;
     cksum_model := Some c; model := model self |}.

Definition set_timestamp_last (now : datetime) (self : t) : t :=
  {| logger := logger self;
     skip_epochs := skip_epochs self; save_best_only := save_best_only self;
     save_best_stat := save_best_stat self; best_stat_last := best_stat_last self;
     save_weights_only := save_weights_only self;
     checksum_enabled := checksum_enabled self; metadata := metadata self;
     timestamp_last := StampTime now; clean := clean self;
     cksum_model := cksum_model self; model := model self |}.

(** Keras attaches the model being trained to the callback. *)
Definition set_model (m : list byte) (self : t) : t :=
  {| logger := logger self;
     skip_epochs := skip_epochs self; save_best_only := save_best_only self;
     save_best_stat := save_best_stat self; best_stat_last := best_stat_last self;
     save_weights_only := save_weights_only self;
     checksum_enabled := checksum_enabled self; metadata := metadata self;
     timestamp_last := timestamp_last self; clean := clean self;
     cksum_model := cksum_model self; model := m |}.

(** The logger of a callback constructed without a [logger] argument. *)
Definition default_logger : Logger := getLogger "CandleCheckpointCallback".

(** [scan_params]: translate [gParameters] into instance fields.  The result
    is [None] for a configuration whose [skip_epochs], [save_best_stat] or
    [best_stat_last] is not of the documented type.  The method fills the
    object the constructor has given its logger; the record built here is
    that of the default construction, [CandleCheckpointCallback(gParameters)],
    and [init] below puts another logger in its place. *)
Definition scan_params (gParameters : gmap string pyval) : option t :=
  match param gParameters "skip_epochs" (PInt 0),
        param gParameters "save_best_stat" (PStr "loss"),
        param gParameters "best_stat_last" PNone with
  | PInt skip, PStr stat, (PNone | PFloat _) as best =>
      Some {| logger := Some default_logger;
              skip_epochs := skip;
              save_best_only := param gParameters "save_best_only" (PBool false);
              save_best_stat := stat;
              best_stat_last :=
                match best with PFloat f => f | _ => math_inf end;
              save_weights_only := param gParameters "save_weights_only" (PBool true);
              checksum_enabled := param gParameters "checksum" (PBool true);
              metadata := param gParameters "metadata" PNone;
              timestamp_last := StampValue (param gParameters "timestamp_last" PNone);
              clean := param gParameters "clean" (PBool false);
              cksum_model := None;
              model := [] |}
  | _, _, _ => None
  end.

Definition set_logger (l : option Logger) (self : t) : t :=
  {| logger := l;
     skip_epochs := skip_epochs self; save_best_only := save_best_only self;
     save_best_stat := save_best_stat self; best_stat_last := best_stat_last self;
     save_weights_only := save_weights_only self;
     checksum_enabled := checksum_enabled self; metadata := metadata self;
     timestamp_last := timestamp_last self; clean := clean self;
     cksum_model := cksum_model self; model := model self |}.

(** The [logger] argument of the constructor: "DEFAULT", or a logger, or
    [None] to disable logging. *)
Inductive logger_arg : Type :=
| DEFAULT
| GivenLogger (l : option Logger).

(** [__init__(gParameters, logger)] *)
Definition init (gParameters : gmap string pyval) (logger : logger_arg)
  : option t :=
  match scan_params gParameters with
  | Some s =>
      Some (set_logger match logger with
                       | DEFAULT => Some default_logger
                       | GivenLogger l => l
                       end s)
  | None => None
  end.

(** *** State threaded through a call of the callback

    [fs] is the current content of the disk and [trace] the contents it had
    before each change made so far, most recent first: together the states in
    which an interruption can leave the disk. *)
Record state : Type := { self : t; fs : gmap string directory;
                         trace : list (gmap string directory) }.

Definition M (A : Type) : Type := state -> result A * state.

Definition ret {A} (a : A) : M A := fun st => (Ok a, st).
Definition raise {A} (e : exn) : M A := fun st => (Raise e, st).
Definition mbind {A B} (m : M A) (k : A -> M B) : M B :=
  fun st => match m st with
            | (Ok a, st') => k a st'
            | (Raise e, st') => (Raise e, st')
            end.
Definition lift {A} (r : result A) : M A := fun st => (r, st).
Definition get_self : M t := fun st => (Ok (self st), st).
Definition with_self (s : t) (st : state) : state :=
  {| self := s; fs := fs st; trace := trace st |}.
Definition put_self (s : t) : M unit := fun st => (Ok tt, with_self s st).
Definition get_fs : M (gmap string directory) := fun st => (Ok (fs st), st).
Definition push (f : gmap string directory) (st : state) : state :=
  {| self := self st; fs := f; trace := fs st :: trace st |}.
Definition put_fs (f : gmap string directory) : M unit :=
  fun st => (Ok tt, push f st).

Declare Scope ckpt_scope.
Delimit Scope ckpt_scope with ckpt.
Notation "x <- c ;; k" := (mbind c (fun x => k))
  (at level 100, c at next level, right associativity) : ckpt_scope.
Notation "c ;; k" := (mbind c (fun _ => k))
  (at level 100, right associativity) : ckpt_scope.
Local Open Scope ckpt_scope.

(** *** File-system calls *)

Definition os_path_exists (dir : string) : M bool :=
  f <- get_fs;; ret (bool_decide (is_Some (f !! dir))).

Definition os_makedirs (dir : string) : M unit :=
  f <- get_fs;;
  match f !! dir with
  | Some _ => raise (FileExistsError dir)
  | None => put_fs (<[dir := empty_directory]> f)
  end.

Definition shutil_rmtree (dir : string) : M unit :=
  f <- get_fs;;
  match f !! dir with
  | Some _ => put_fs (delete dir f)
  | None => raise (FileNotFoundError dir)
  end.

(** [os.rename] of a directory: the source must exist, and an existing
    destination is replaced only when it is an empty directory. *)
Definition os_rename (src dst : string) : M unit :=
  f <- get_fs;;
  match f !! src with
  | None => raise (FileNotFoundError src)
  | Some d =>
      match f !! dst with
      | Some d' =>
          if is_empty d' then put_fs (<[dst := d]> (delete src f))
          else raise (OSError dst)
      | None => put_fs (<[dst := d]> (delete src f))
      end
  end.

(** [self.model.save(dir + "/model.h5")]: the file is created or truncated,
    then the weights are written and the file is closed. *)
Definition model_save (dir : string) : M unit :=
  s <- get_self;;
  f <- get_fs;;
  match f !! dir with
  | None => raise (FileNotFoundError (dir +:+ "/model.h5"))
  | Some d =>
      put_fs (<[dir := {| model_h5 := Some []; ckpt_info_json := ckpt_info_json d |}]> f);;
      put_fs (<[dir := {| model_h5 := Some (model s); ckpt_info_json := ckpt_info_json d |}]> f)
  end.

(** [with open(jsonfile, "w") as fp: json.dump(D, fp); fp.write("\n")] *)
Definition json_dump (dir : string) (D : gmap string pyval) : M unit :=
  f <- get_fs;;
  match f !! dir with
  | None => raise (FileNotFoundError (dir +:+ "/ckpt-info.json"))
  | Some d =>
      put_fs (<[dir := {| model_h5 := model_h5 d; ckpt_info_json := Some Garbled |}]> f);;
      put_fs (<[dir := {| model_h5 := model_h5 d; ckpt_info_json := Some (JsonDoc D) |}]> f)
  end.

(** *** Methods *)

(** [save_check]: do we want to save this epoch? *)
Definition save_check (logs : list (string * spec_float)) (epoch : Z) : M bool :=
  s <- get_self;;
  if epoch <? skip_epochs s then ret false
  else if negb (truthy (save_best_only s)) then ret true
  else match dict_get logs (save_best_stat s) with
       | None =>
           msg <- lift (percent ("CandleCheckpointCallback: " +:+
                                 "save_best_stat='%s' " +:+
                                 "not in list of model metrics: %s")
                                [save_best_stat s; str_keys logs]);;
           raise (Exception msg)
       | Some v =>
           if float_lt v (best_stat_last s)
           then put_self (set_best_stat_last v s);; ret true
           else ret false
       end.

(** [checksum]: simple checksum dispatch. *)
Definition checksum (dir_work : string) : M unit :=
  s <- get_self;;
  if truthy (checksum_enabled s) then
    f <- get_fs;;
    cksum <- lift (checksum_file_at (logger s) f dir_work);;
    put_self (set_cksum_model cksum s)
  else put_self (set_cksum_model "__DISABLED__" s).

(** The dict [D] that [write_json] fills in. *)
Definition descriptor (s : t) (cksum : string) (epoch : Z) (now : datetime)
  (elapsed : pyval) : gmap string pyval :=
  <["metadata" := metadata s]>
  (<["time_elapsed" := elapsed]>
  (<["timestamp" := PStr (dt_text now)]>
  (<["checksum" := PStr cksum]>
  (<["model_file" := PStr "model.h5"]>
  (<["best_stat_last" := PFloat (best_stat_last s)]>
  (<["save_best_stat" := PStr (save_best_stat s)]>
  (<["save_best_only" := save_best_only s]>
  (<["epoch" := PInt epoch]> ∅)))))))).

Definition write_json (dir : string) (epoch : Z) (now : datetime) : M unit :=
  s <- get_self;;
  match cksum_model s with
  | None => raise (AttributeError "cksum_model")
  | Some cksum =>
      elapsed <- lift (time_elapsed (timestamp_last s) now);;
      put_self (set_timestamp_last now s);;
      json_dump dir (descriptor s cksum epoch now elapsed)
  end.

(** [write_model]: do the I/O.  The duration and throughput computed
    between the calls go to [debug] only. *)
Definition write_model (dir_work : string) (epoch : Z) (now : datetime) : M unit :=
  model_save dir_work;;
  checksum dir_work;;
  write_json dir_work epoch now.

(** [on_epoch_end]: write the current state to ckpt-work, rename ckpt-good
    to ckpt-old, rename ckpt-work to ckpt-good, delete ckpt-old. *)
Definition on_epoch_end (epoch : Z) (logs : list (string * spec_float))
  (now : datetime) : M unit :=
  e_work <- os_path_exists dir_work;;
  (if e_work then ret tt else os_makedirs dir_work);;
  go <- save_check logs epoch;;
  if negb go then ret tt else
  write_model dir_work epoch now;;
  e_old <- os_path_exists dir_old;;
  (if e_old then shutil_rmtree dir_old else ret tt);;
  s <- get_self;;
  e_good <- os_path_exists dir_good;;
  do_clean <- (if e_good then os_rename dir_good dir_old;; ret (clean s)
               else ret (PBool false));;
  os_rename dir_work dir_good;;
  if truthy do_clean then shutil_rmtree dir_old else ret tt.

Local Close Scope ckpt_scope.

End CandleCheckpointCallback.

(** ** Restart *)

Local Open Scope result_scope.

(** [J[key]] *)
Definition getitem (J : gmap string pyval) (key : string) : result pyval :=
  match J !! key with
  | Some v => Ok v
  | None => Raise (KeyError key)
  end.

(** [s != v] for a string [s]: a string differs from every value that is not
    the same string. *)
Definition str_ne (s : string) (v : pyval) : bool :=
  match v with
  | PStr s' => negb (String.eqb s s')
  | _ => true
  end.

(** What the conversion [%i] accepts. *)
Definition format_i (v : pyval) : result unit :=
  match v with
  | PBool _ | PInt _ => Ok tt
  | PFloat (S754_zero _) | PFloat (S754_finite _ _ _) => Ok tt
  | PFloat (S754_infinity _) =>
      Raise (OverflowError "cannot convert float infinity to integer")
  | PFloat S754_nan => Raise (ValueError "cannot convert float NaN to integer")
  | (PNone | PStr _) as v =>
      Raise (TypeError ("%i format: a real number is required, not "
                        +:+ type_name v))
  end.

(** The logger [restart] obtains and hands to [restart_json]. *)
Definition restart_logger : Logger := getLogger "Candle.restart".

Definition restart_json (gParameters : gmap string pyval)
  (fs : gmap string directory) (directory : string)
  : result (gmap string pyval) :=
  let json_file := directory +:+ "/ckpt-info.json" in
  let info := d ← fs !! directory; ckpt_info_json d in
  _ <- match info with
       | None =>
           msg <- percent "restart_json(): in: %s model exists but not json!"
                          [directory];;
           if negb (disabled gParameters "require_json")
           then Raise (Exception msg) else Ok tt
       | Some _ => Ok tt
       end;;
  J <- match info with
       | None => Raise (FileNotFoundError json_file)
       | Some Garbled => Raise (JSONDecodeError json_file)
       | Some (JsonDoc J) => Ok J
       end;;
  if negb (disabled gParameters "checksum") then
    checksum <- checksum_file_at (Some restart_logger) fs directory;;
    recorded <- getitem J "checksum";;
    if str_ne checksum recorded then
      msg <- percent "checksum mismatch! directory: " [directory];;
      Raise (Exception msg)
    else Ok J
  else Ok J.

(** [restart]: returns the JSON dict if the restart happened, [None] if it
    did not; the second component is the state of [model] afterwards
    ([load_weights] replaces it by what the file holds).  The log line
    before [load_weights] formats the epoch with [%i]; the duration and
    throughput computed after it go to the log only. *)
Definition restart (gParameters : gmap string pyval) (model : list byte)
  (fs : gmap string directory)
  : result (option (gmap string pyval)) * list byte :=
  if disabled gParameters "restart" then (Ok None, model)
  else
    match d ← fs !! dir_good; model_h5 d with
    | None => (Ok None, model)
    | Some contents =>
        match (result <- restart_json gParameters fs dir_good;;
               epoch <- getitem result "epoch";;
               _ <- getitem result "timestamp";;
               _ <- format_i epoch;;
               Ok result) with
        | Raise e => (Raise e, model)
        | Ok result => (Ok (Some result), contents)
        end
    end.

Local Close Scope result_scope.

(** ** Snapshots *)

(** A directory holds a complete snapshot when it has the weights and a
    descriptor whose [checksum] is the checksum of these weights, or the mark
    written when checksumming is off. *)
Definition complete_snapshot (d : directory) : bool :=
  match model_h5 d, ckpt_info_json d with
  | Some w, Some (JsonDoc J) =>
      match J !! "checksum" with
      | Some (PStr c) =>
          String.eqb c (checksum_file w) || String.eqb c "__DISABLED__"
      | _ => false
      end
  | _, _ => false
  end.

(** The [timestamp_last] of a callback is usable by [write_json]: unset, or
    the time of an earlier descriptor. *)
Definition stamp_ok (last : stamp) : bool :=
  match last with
  | StampValue PNone | StampTime _ => true
  | StampValue _ => false
  end.

(** The [time_elapsed] entry for a callback with a usable [timestamp_last]. *)
Definition elapsed_of (s : CandleCheckpointCallback.t) (now : datetime) : pyval :=
  match CandleCheckpointCallback.timestamp_last s with
  | StampTime d => PFloat (total_seconds (dt_micros now - dt_micros d))
  | StampValue _ => PStr "__FIRST__"
  end.

(** The directory [write_model] leaves in place of ckpt-work. *)
Definition written (s : CandleCheckpointCallback.t) (epoch : Z)
  (now : datetime) : directory :=
  {| model_h5 := Some (CandleCheckpointCallback.model s);
     ckpt_info_json :=
       Some (JsonDoc
         (CandleCheckpointCallback.descriptor
            (CandleCheckpointCallback.set_cksum_model
               (if truthy (CandleCheckpointCallback.checksum_enabled s)
                then checksum_file (CandleCheckpointCallback.model s)
                else "__DISABLED__") s)
            (if truthy (CandleCheckpointCallback.checksum_enabled s)
             then checksum_file (CandleCheckpointCallback.model s)
             else "__DISABLED__") epoch now (elapsed_of s now))) |}.

(** The checksum entry that [checksum] computes for a callback. *)
Definition cksum_of (s : CandleCheckpointCallback.t) : string :=
  if truthy (CandleCheckpointCallback.checksum_enabled s)
  then checksum_file (CandleCheckpointCallback.model s)
  else "__DISABLED__".

(** Every content the disk has had up to now, most recent first. *)
Definition all_states (st : CandleCheckpointCallback.state)
  : list (gmap string directory) :=
  CandleCheckpointCallback.fs st :: CandleCheckpointCallback.trace st.

(** ** Training runs *)

(** The save decisions of a run: [save_check] is called epoch by epoch with
    that epoch's logs until an exception ends the run.  The result lists the
    tracked metric of the epochs for which [save_check] answered [True], most
    recent first, with the state the callback is left in. *)
Fixpoint save_decisions (epochs : list (Z * list (string * spec_float)))
  (st : CandleCheckpointCallback.state) (accepted : list spec_float)
  : list spec_float * CandleCheckpointCallback.state :=
  match epochs with
  | [] => (accepted, st)
  | (epoch, logs) :: epochs' =>
      match CandleCheckpointCallback.save_check logs epoch st with
      | (Ok true, st') =>
          save_decisions epochs' st'
            (match dict_get logs (CandleCheckpointCallback.save_best_stat
                                    (CandleCheckpointCallback.self st)) with
             | Some v => v :: accepted
             | None => accepted
             end)
      | (Ok false, st') => save_decisions epochs' st' accepted
      | (Raise _, st') => (accepted, st')
      end
  end.

(** [on_epoch_end] makes ckpt-work before anything else: the state in which
    [save_check] is called. *)
Definition with_work (st : CandleCheckpointCallback.state)
  : CandleCheckpointCallback.state :=
  match CandleCheckpointCallback.fs st !! dir_work with
  | Some _ => st
  | None =>
      CandleCheckpointCallback.push
        (<[dir_work := empty_directory]> (CandleCheckpointCallback.fs st)) st
  end.

(** The descriptor in ckpt-good, if there is one, records the callback's
    current [best_stat_last]. *)
Definition descriptor_tracks_best (st : CandleCheckpointCallback.state) : Prop :=
  forall d D,
    CandleCheckpointCallback.fs st !! dir_good = Some d ->
    ckpt_info_json d = Some (JsonDoc D) ->
    D !! "best_stat_last"
    = Some (PFloat (CandleCheckpointCallback.best_stat_last
                      (CandleCheckpointCallback.self st))).

(** What one epoch of training hands to the callback: the epoch's number,
    its logs, the time of the call, and the weights the model has by then. *)
Record epoch_end : Type := {
  ep_epoch : Z;
  ep_logs : list (string * spec_float);
  ep_now : datetime;
  ep_weights : list byte }.

(** A training run as the callback sees it: each epoch changes the weights
    of the model the callback is attached to, then [on_epoch_end] is called,
    until an exception ends the run. *)
Fixpoint fit (epochs : list epoch_end) (st : CandleCheckpointCallback.state)
  : result unit * CandleCheckpointCallback.state :=
  match epochs with
  | [] => (Ok tt, st)
  | e :: epochs' =>
      match CandleCheckpointCallback.on_epoch_end (ep_epoch e) (ep_logs e) (ep_now e)
              (CandleCheckpointCallback.with_self
                 (CandleCheckpointCallback.set_model (ep_weights e)
                    (CandleCheckpointCallback.self st)) st) with
      | (Ok _, st') => fit epochs' st'
      | (Raise e, st') => (Raise e, st')
      end
  end.

(** The smaller of two floats, and the minimum of a list, [math.inf] for
    the empty list. *)
Definition float_min (x y : spec_float) : spec_float :=
  if float_lt x y then x else y.
Definition float_min_list (l : list spec_float) : spec_float :=
  fold_right float_min math_inf l.

(** ** Checks on concrete inputs *)

Example crc32_check :
  zlib.crc32 [x31; x32; x33; x34; x35; x36; x37; x38; x39]%byte 0 = 0xCBF43926.
Proof. vm_compute. reflexivity. Qed.

Example checksum_file_check :
  checksum_file [x31; x32; x33; x34; x35; x36; x37; x38; x39]%byte = "3421780262".
Proof. vm_compute. reflexivity. Qed.

Example percent_check :
  percent "in: %s model" ["save/ckpt-good"] = Ok "in: save/ckpt-good model".
Proof. reflexivity. Qed.

(** Values used to exercise the definitions: the floats 0.5, 1.0 and 2.0, a
    configuration, the callback [scan_params] builds from it, and the state
    of a first call on a given disk. *)
Definition float_half : spec_float := S754_finite false 4503599627370496 (-53).
Definition float_1 : spec_float := S754_finite false 4503599627370496 (-52).
Definition float_2 : spec_float := S754_finite false 4503599627370496 (-51).

Definition example_params : gmap string pyval :=
  {[ "skip_epochs" := PInt 3; "save_best_only" := PBool true ]}.

(** The setting of the module's documentation that is meant to switch the
    restart off. *)
Definition off_params : gmap string pyval := {[ "restart" := PStr "OFF" ]}.

Definition example_self : CandleCheckpointCallback.t :=
  {| CandleCheckpointCallback.logger :=
       Some CandleCheckpointCallback.default_logger;
     CandleCheckpointCallback.skip_epochs := 3;
     CandleCheckpointCallback.save_best_only := PBool true;
     CandleCheckpointCallback.save_best_stat := "loss";
     CandleCheckpointCallback.best_stat_last := math_inf;
     CandleCheckpointCallback.save_weights_only := PBool true;
     CandleCheckpointCallback.checksum_enabled := PBool true;
     CandleCheckpointCallback.metadata := PNone;
     CandleCheckpointCallback.timestamp_last := StampValue PNone;
     CandleCheckpointCallback.clean := PBool false;
     CandleCheckpointCallback.cksum_model := None;
     CandleCheckpointCallback.model := [] |}.

(** The callback of the empty configuration: every option at its default. *)
Definition plain_self : CandleCheckpointCallback.t :=
  {| CandleCheckpointCallback.logger :=
       Some CandleCheckpointCallback.default_logger;
     CandleCheckpointCallback.skip_epochs := 0;
     CandleCheckpointCallback.save_best_only := PBool false;
     CandleCheckpointCallback.save_best_stat := "loss";
     CandleCheckpointCallback.best_stat_last := math_inf;
     CandleCheckpointCallback.save_weights_only := PBool true;
     CandleCheckpointCallback.checksum_enabled := PBool true;
     CandleCheckpointCallback.metadata := PNone;
     CandleCheckpointCallback.timestamp_last := StampValue PNone;
     CandleCheckpointCallback.clean := PBool false;
     CandleCheckpointCallback.cksum_model := None;
     CandleCheckpointCallback.model := [] |}.

Definition first_state (s : CandleCheckpointCallback.t)
  (disk : gmap string directory) : CandleCheckpointCallback.state :=
  {| CandleCheckpointCallback.self := s;
     CandleCheckpointCallback.fs := disk;
     CandleCheckpointCallback.trace := [] |}.

Definition example_epochs : list (Z * list (string * spec_float)) :=
  [ (2, [("loss", float_half)]);
    (3, [("loss", float_2)]);
    (4, [("loss", float_1)]);
    (5, [("loss", float_1)]);
    (6, [("loss", float_2)]) ].

(** A snapshot on disk: weights, and a descriptor recording their checksum. *)
Definition example_weights : list byte :=
  [x31; x32; x33; x34; x35; x36; x37; x38; x39]%byte.

Definition example_descriptor : gmap string pyval :=
  {[ "epoch" := PInt 3;
     "best_stat_last" := PFloat float_1;
     "model_file" := PStr "model.h5";
     "checksum" := PStr "3421780262";
     "timestamp" := PStr "2021-03-01 12:00:00" ]}.

Definition example_good : directory :=
  {| model_h5 := Some example_weights;
     ckpt_info_json := Some (JsonDoc example_descriptor) |}.

(** The same snapshot with the last byte of the weights altered, and with
    the descriptor file removed. *)
Definition corrupted_weights : list byte :=
  [x31; x32; x33; x34; x35; x36; x37; x38; x38]%byte.

Definition corrupted_good : directory :=
  {| model_h5 := Some corrupted_weights;
     ckpt_info_json := Some (JsonDoc example_descriptor) |}.

Definition example_now : datetime :=
  {| dt_micros := 1614600000000000; dt_text := "2021-03-01 12:00:00" |}.

Definition bare_good : directory :=
  {| model_h5 := Some example_weights; ckpt_info_json := None |}.


(** A callback constructed with [logger=None], and one configured with a
    "timestamp_last" taken from a descriptor, each attached to a model and
    about to save over [example_good]. *)
Definition silent_save_state : CandleCheckpointCallback.state :=
  first_state
    (CandleCheckpointCallback.set_logger None
       (CandleCheckpointCallback.set_model corrupted_weights example_self))
    {[ dir_good := example_good ]}.

Definition stamped_params : gmap string pyval :=
  {[ "timestamp_last" := PStr "2021-03-01 12:00:00" ]}.

(** A training run of three epochs, the weights changing at each. *)
Definition example_run : list epoch_end :=
  [ {| ep_epoch := 5; ep_logs := [("loss", float_2)]; ep_now := example_now;
       ep_weights := example_weights |};
    {| ep_epoch := 6; ep_logs := [("loss", float_1)]; ep_now := example_now;
       ep_weights := corrupted_weights |};
    {| ep_epoch := 7; ep_logs := [("loss", float_2)]; ep_now := example_now;
       ep_weights := [] |} ].

(** The callback attached to a model, about to save over [example_good]. *)
Definition example_save_state : CandleCheckpointCallback.state :=
  first_state (CandleCheckpointCallback.set_model corrupted_weights example_self)
    {[ dir_good := example_good ]}.

Example scan_params_check :
  CandleCheckpointCallback.scan_params example_params = Some example_self.
Proof. reflexivity. Qed.

Example scan_params_empty_check :
  CandleCheckpointCallback.scan_params ∅ = Some plain_self.
Proof. reflexivity. Qed.

(** * Properties *)

(** ** The 32-bit accumulator *)

Section Crc.

Import zlib.

Lemma lxor_range a b :
  0 <= a < 2 ^ 32 -> 0 <= b < 2 ^ 32 -> 0 <= Z.lxor a b < 2 ^ 32.
Proof.
  intros Ha Hb.
  assert (H0 : 0 <= Z.lxor a b) by (apply Z.lxor_nonneg; lia).
  split; [exact H0|].
  destruct (Z.eq_dec (Z.lxor a b) 0) as [->|Hne]; [lia|].
  apply Z.log2_lt_pow2; [lia|].
  pose proof (Z.log2_lxor a b ltac:(lia) ltac:(lia)) as Hl.
  assert (Z.log2 a < 32).
  { destruct (Z.eq_dec a 0) as [->|]; [simpl; lia|]. apply Z.log2_lt_pow2; lia. }
  assert (Z.log2 b < 32).
  { destruct (Z.eq_dec b 0) as [->|]; [simpl; lia|]. apply Z.log2_lt_pow2; lia. }
  lia.
Qed.

Lemma lxor_mask_involutive x : Z.lxor (Z.lxor x mask32) mask32 = x.
Proof. rewrite Z.lxor_assoc, Z.lxor_nilpotent. apply Z.lxor_0_r. Qed.

Lemma crc_bit_range c : 0 <= c < 2 ^ 32 -> 0 <= crc_bit c < 2 ^ 32.
Proof.
  intros Hc. unfold crc_bit.
  assert (Hs : 0 <= Z.shiftr c 1 < 2 ^ 32).
  { rewrite Z.shiftr_div_pow2 by lia. change (2 ^ 1) with 2.
    split; [apply Z.div_pos; lia|].
    apply Z.div_lt_upper_bound; lia. }
  destruct (Z.testbit c 0); [|exact Hs].
  apply lxor_range; [exact Hs|]. unfold poly. lia.
Qed.

Lemma byte_val_range b : 0 <= byte_val b < 2 ^ 32.
Proof.
  unfold byte_val. pose proof (Byte.to_N_bounded b) as H.
  split; [lia|]. change (2 ^ 32) with 4294967296. lia.
Qed.

Lemma crc_byte_range c b : 0 <= c < 2 ^ 32 -> 0 <= crc_byte c b < 2 ^ 32.
Proof.
  intros Hc. unfold crc_byte.
  assert (Hx := lxor_range c (byte_val b) Hc (byte_val_range b)).
  generalize dependent (Z.lxor c (byte_val b)). intros x Hx.
  do 8 (simpl Nat.iter; apply crc_bit_range). exact Hx.
Qed.

Lemma crc_fold_range data c :
  0 <= c < 2 ^ 32 -> 0 <= fold_left crc_byte data c < 2 ^ 32.
Proof.
  revert c; induction data as [|b data IH]; intros c Hc; simpl; [exact Hc|].
  apply IH, crc_byte_range, Hc.
Qed.

Lemma mask32_range : 0 <= mask32 < 2 ^ 32.
Proof. unfold mask32. lia. Qed.

Lemma crc32_range data value : 0 <= crc32 data value < 2 ^ 32.
Proof.
  unfold crc32. apply lxor_range; [|apply mask32_range].
  apply crc_fold_range, lxor_range; [|apply mask32_range].
  apply Z.mod_pos_bound. lia.
Qed.

Lemma crc32_nil value : 0 <= value < 2 ^ 32 -> crc32 [] value = value.
Proof.
  intros H. unfold crc32. simpl. rewrite lxor_mask_involutive.
  apply Z.mod_small, H.
Qed.

(** Feeding [b] after [a] continues the computation on [a ++ b]. *)
Lemma crc32_app a b value : crc32 (a ++ b) value = crc32 b (crc32 a value).
Proof.
  unfold crc32 at 1 2. rewrite fold_left_app. f_equal. f_equal.
  fold (crc32 a value).
  rewrite (Z.mod_small (crc32 a value)) by apply crc32_range.
  unfold crc32. now rewrite lxor_mask_involutive.
Qed.

Lemma crc32_chunks chunks value :
  0 <= value < 2 ^ 32 ->
  fold_left (fun acc chunk => crc32 chunk acc) chunks value
  = crc32 (concat chunks) value.
Proof.
  revert value; induction chunks as [|c chunks IH]; intros value Hv; simpl.
  - symmetry. apply crc32_nil, Hv.
  - rewrite crc32_app. apply IH, crc32_range.
Qed.

End Crc.

Lemma read_unread n rest :
  (read_bytes n rest ++ unread_bytes n rest)%list = rest.
Proof.
  revert n; induction rest as [|b rest IH]; intros n; simpl; [reflexivity|].
  destruct (n =? 0)%N; simpl; [reflexivity|]. now rewrite IH.
Qed.

Lemma read_bytes_nil n rest : (0 < n)%N -> read_bytes n rest = [] -> rest = [].
Proof.
  intros Hn. destruct rest as [|b rest]; simpl; [reflexivity|].
  destruct (N.eqb_spec n 0); [lia|discriminate].
Qed.

(** The loop computes the checksum of all that was unread, whatever the
    chunk size. *)
Lemma checksum_loop_crc32 n rest checksum :
  (0 < n)%N -> 0 <= checksum < 2 ^ 32 ->
  checksum_loop n rest checksum = zlib.crc32 rest checksum.
Proof.
  intros Hn. funelim (checksum_loop n rest checksum); intros Hc.
  - match goal with e : read_bytes _ _ = [] |- _ =>
      rewrite (read_bytes_nil _ _ Hn e) end.
    symmetry. now apply crc32_nil.
  - match goal with IH : _ -> _ -> checksum_loop _ _ _ = zlib.crc32 _ _ |- _ =>
      rewrite IH by (auto using crc32_range) end.
    rewrite <- crc32_app.
    match goal with e : read_bytes _ _ = _ :: _ |- _ => rewrite <- e end.
    now rewrite read_unread.
Qed.

(** C7. Folding the chunks of any partition of a byte sequence through the
    accumulator seeded at 0 gives the value obtained from the whole sequence
    in one chunk; the loop of [checksum_file] gives that value for every
    positive chunk size, and [checksum_file] returns it rendered as a
    string. *)
Theorem checksum_chunking_independent (chunks : list (list byte)) :
  fold_left (fun acc chunk => zlib.crc32 chunk acc) chunks 0
    = zlib.crc32 (concat chunks) 0
  /\ (forall n : N,
        checksum_loop (N.succ n) (concat chunks) 0 = zlib.crc32 (concat chunks) 0)
  /\ checksum_file (concat chunks) = pretty (zlib.crc32 (concat chunks) 0).
Proof.
  split; [apply crc32_chunks; lia|].
  split.
  - intros n. apply checksum_loop_crc32; lia.
  - unfold checksum_file. f_equal. apply checksum_loop_crc32; [reflexivity|lia].
Qed.

(** ** Parameter resolver *)

(** C9. [enabled] gives a true value iff the key is present with a truthy
    value, [disabled] returns [True] iff the key is present with a falsy
    value, and both give [False] for an absent key. *)
Theorem enabled_disabled_tristate (gParameters : gmap string pyval) (key : string) :
  (truthy (enabled gParameters key) = true
     <-> exists v, gParameters !! key = Some v /\ truthy v = true)
  /\ (disabled gParameters key = true
     <-> exists v, gParameters !! key = Some v /\ truthy v = false)
  /\ (gParameters !! key = None ->
      enabled gParameters key = PBool false /\ disabled gParameters key = false).
Proof.
  unfold enabled, disabled.
  destruct (gParameters !! key) as [v|]; repeat split.
  - intros H. now exists v.
  - now intros (v' & [= <-] & H).
  - intros H. exists v. split; [reflexivity|]. now apply negb_true_iff.
  - intros (v' & [= <-] & H). now apply negb_true_iff.
  - discriminate.
  - discriminate.
  - discriminate.
  - now intros (v' & [=] & _).
  - discriminate.
  - now intros (v' & [=] & _).
Qed.

(** ** Save policy *)

Section SavePolicy.

Import CandleCheckpointCallback.

(** C8. During the warm-up epochs [save_check] returns [False], whatever the
    logs and the [save_best_only] setting, and changes nothing; [on_epoch_end]
    then writes no snapshot: at most it creates an empty ckpt-work. *)
Theorem save_check_warmup (st : state) (logs : list (string * spec_float))
  (epoch : Z) (now : datetime) :
  epoch < skip_epochs (self st) ->
  save_check logs epoch st = (Ok false, st)
  /\ exists st',
       on_epoch_end epoch logs now st = (Ok tt, st')
       /\ self st' = self st
       /\ (fs st' = fs st
           \/ (fs st !! dir_work = None
               /\ fs st' = <[dir_work := empty_directory]> (fs st))).
Proof.
  intros H. apply Z.ltb_lt in H.
  assert (Hsc : forall st0, self st0 = self st ->
                            save_check logs epoch st0 = (Ok false, st0)).
  { intros st0 E. unfold save_check, mbind, get_self, ret. now rewrite E, H. }
  split; [now apply Hsc|].
  unfold on_epoch_end, os_path_exists, os_makedirs, mbind, get_fs, ret, put_fs.
  destruct (fs st !! dir_work) as [dw|] eqn:Hw.
  - rewrite bool_decide_eq_true_2 by eauto.
    rewrite (Hsc st eq_refl). simpl.
    eexists. split; [reflexivity|]. split; [reflexivity|]. now left.
  - rewrite bool_decide_eq_false_2 by (apply is_Some_None).
    cbv beta iota. rewrite Hw. cbv beta iota.
    rewrite (Hsc (push (<[dir_work:=empty_directory]> (fs st)) st) eq_refl).
    simpl.
    eexists. split; [reflexivity|]. split; [reflexivity|]. right. now split.
Qed.

Lemma save_check_warmup_witness :
  save_check [("loss", float_1)] 2 (first_state example_self ∅)
  = (Ok false, first_state example_self ∅)
  /\ on_epoch_end 2 [("loss", float_1)] example_now (first_state example_self ∅)
     = (Ok tt, push {[ dir_work := empty_directory ]} (first_state example_self ∅)).
Proof.
  destruct (save_check_warmup (first_state example_self ∅) [("loss", float_1)] 2
              example_now ltac:(reflexivity)) as (Hsc & _).
  split; [exact Hsc|]. reflexivity.
Defined.

(** Without a configured [best_stat_last] the callback starts at infinity. *)
Lemma scan_params_best_default gParameters s :
  scan_params gParameters = Some s ->
  gParameters !! "best_stat_last" = None
    \/ gParameters !! "best_stat_last" = Some PNone ->
  best_stat_last s = math_inf.
Proof.
  unfold scan_params, param. intros Hs Hb.
  destruct (gParameters !! "skip_epochs") as [[]|];
    destruct (gParameters !! "save_best_stat") as [[]|];
    destruct (gParameters !! "timestamp_last") as [[]|];
    destruct Hb as [Hb|Hb]; try rewrite Hb in Hs; try discriminate;
    injection Hs as <-; reflexivity.
Qed.

Lemma string_app_nil_r (s : string) : s +:+ EmptyString = s.
Proof.
  induction s as [|c s IH]; [reflexivity|].
  change (String c (s +:+ EmptyString) = String c s). now rewrite IH.
Qed.

Lemma percent_missing_stat (stat keys : string) :
  percent ("CandleCheckpointCallback: " +:+ "save_best_stat='%s' " +:+
           "not in list of model metrics: %s") [stat; keys]
  = Ok ("CandleCheckpointCallback: save_best_stat='" +:+ stat
        +:+ "' not in list of model metrics: " +:+ keys).
Proof.
  unfold percent.
  change (percent_go _ _) with
    (percent_go
       "CandleCheckpointCallback: save_best_stat='%s' not in list of model metrics: %s"
       [stat; keys]).
  cbn [percent_go]. rewrite string_app_nil_r. reflexivity.
Qed.

(** What [save_check] does once best-only saving is on. *)
Lemma save_check_best_only_eq st logs epoch :
  truthy (save_best_only (self st)) = true ->
  save_check logs epoch st =
    if epoch <? skip_epochs (self st) then (Ok false, st)
    else match dict_get logs (save_best_stat (self st)) with
         | None =>
             (Raise (Exception
                ("CandleCheckpointCallback: save_best_stat='"
                 +:+ save_best_stat (self st)
                 +:+ "' not in list of model metrics: " +:+ str_keys logs)), st)
         | Some v =>
             if float_lt v (best_stat_last (self st))
             then (Ok true, with_self (set_best_stat_last v (self st)) st)
             else (Ok false, st)
         end.
Proof.
  intros Hb. unfold save_check, mbind, get_self, ret, raise, lift, put_self.
  destruct (epoch <? skip_epochs (self st)); [reflexivity|].
  rewrite Hb. simpl negb. cbv iota.
  destruct (dict_get logs (save_best_stat (self st))) as [v|].
  - destruct (float_lt v (best_stat_last (self st))); reflexivity.
  - now rewrite percent_missing_stat.
Qed.

(** C4. With best-only saving on and the warm-up over, a tracked metric that
    is absent from the logs makes [save_check] raise an exception whose
    message names the stat and the metrics that are available; nothing is
    returned and the callback is unchanged. *)
Theorem save_check_missing_stat (st : state) (logs : list (string * spec_float))
  (epoch : Z) :
  skip_epochs (self st) <= epoch ->
  truthy (save_best_only (self st)) = true ->
  dict_get logs (save_best_stat (self st)) = None ->
  save_check logs epoch st =
    (Raise (Exception
       ("CandleCheckpointCallback: save_best_stat='" +:+ save_best_stat (self st)
        +:+ "' not in list of model metrics: " +:+ str_keys logs)), st).
Proof.
  intros He Hb Hk. rewrite save_check_best_only_eq by exact Hb.
  apply Z.ltb_ge in He. now rewrite He, Hk.
Qed.

Lemma save_check_missing_stat_witness :
  save_check [("acc", float_1); ("val_acc", float_half)] 5 (first_state example_self ∅) =
    (Raise (Exception
       "CandleCheckpointCallback: save_best_stat='loss' not in list of model metrics: dict_keys(['acc', 'val_acc'])"),
     first_state example_self ∅).
Proof.
  apply (save_check_missing_stat (first_state example_self ∅)
           [("acc", float_1); ("val_acc", float_half)] 5); reflexivity || (simpl; lia).
Defined.

(** *** The order on floats *)

Lemma float_lt_irrefl a : float_lt a a = false.
Proof.
  unfold float_lt, SFltb, SFcompare.
  destruct a as [s|s| |s m e]; try destruct s; try reflexivity;
    rewrite Z.compare_refl;
    change (Pos.compare_cont Eq m m) with (Pos.compare m m);
    now rewrite Pos.compare_refl.
Qed.

Lemma float_lt_trans a b c :
  float_lt a b = true -> float_lt b c = true -> float_lt a c = true.
Proof.
  unfold float_lt, SFltb, SFcompare.
  destruct a as [sa|sa| |sa ma ea], b as [sb|sb| |sb mb eb],
           c as [sc|sc| |sc mc ec];
    try destruct sa; try destruct sb; try destruct sc;
    try discriminate; try reflexivity;
    repeat match goal with
      | |- context [Pos.compare_cont Eq ?x ?y] =>
          change (Pos.compare_cont Eq x y) with (Pos.compare x y)
      end;
    repeat match goal with
      | |- context [Z.compare ?x ?y] => destruct (Z.compare_spec x y)
      | |- context [Pos.compare ?x ?y] => destruct (Pos.compare_spec x y)
      end;
    simpl; intros; try discriminate; try reflexivity; lia.
Qed.

Lemma float_lt_below a b c :
  float_lt a b = false -> float_lt c b = true -> float_lt a c = false.
Proof.
  intros Hab Hcb. destruct (float_lt a c) eqn:Hac; [|reflexivity].
  now rewrite (float_lt_trans a c b Hac Hcb) in Hab.
Qed.

(** *** Best-only saving over a run *)

Lemma save_decisions_invariant epochs : forall st accepted,
  truthy (save_best_only (self st)) = true ->
  best_stat_last (self st) = float_min_list accepted ->
  Forall (fun a => float_lt a (best_stat_last (self st)) = false) accepted ->
  truthy (save_best_only (self (save_decisions epochs st accepted).2)) = true
  /\ best_stat_last (self (save_decisions epochs st accepted).2)
     = float_min_list (save_decisions epochs st accepted).1
  /\ Forall (fun a => float_lt a
               (best_stat_last (self (save_decisions epochs st accepted).2)) = false)
       (save_decisions epochs st accepted).1.
Proof.
  induction epochs as [|[epoch logs] epochs IH]; intros st accepted Hb Hmin Hlow.
  - simpl. auto.
  - simpl. rewrite save_check_best_only_eq by exact Hb.
    destruct (epoch <? skip_epochs (self st)); [now apply IH|].
    destruct (dict_get logs (save_best_stat (self st))) as [v|]; [|simpl; auto].
    destruct (float_lt v (best_stat_last (self st))) eqn:Hlt; [|now apply IH].
    apply IH; simpl.
    + exact Hb.
    + unfold float_min_list in *. simpl. rewrite <- Hmin.
      unfold float_min. now rewrite Hlt.
    + constructor; [apply float_lt_irrefl|].
      eapply Forall_impl; [exact Hlow|].
      intros a Ha. simpl in Ha. eapply float_lt_below; eassumption.
Qed.

(** C2. Start a run with best-only saving on and [best_stat_last] at
    infinity.  After any number of epochs [best_stat_last] is the minimum of
    the values accepted so far, and none of them is below it.  In an epoch at
    or past [skip_epochs] whose logs hold the tracked metric, [save_check]
    returns [True] exactly when the value is strictly less than
    [best_stat_last], which then takes that value; otherwise (a tie or a
    larger value) it returns [False] and leaves the callback as it was. *)
Theorem save_check_strict_improvement (st0 : state)
  (epochs : list (Z * list (string * spec_float))) :
  truthy (save_best_only (self st0)) = true ->
  best_stat_last (self st0) = math_inf ->
  let accepted := (save_decisions epochs st0 []).1 in
  let st := (save_decisions epochs st0 []).2 in
  best_stat_last (self st) = float_min_list accepted
  /\ Forall (fun a => float_lt a (best_stat_last (self st)) = false) accepted
  /\ (forall epoch logs v,
        skip_epochs (self st) <= epoch ->
        dict_get logs (save_best_stat (self st)) = Some v ->
        save_check logs epoch st =
          if float_lt v (best_stat_last (self st))
          then (Ok true, with_self (set_best_stat_last v (self st)) st)
          else (Ok false, st))
  /\ (forall epoch logs,
        skip_epochs (self st) <= epoch ->
        dict_get logs (save_best_stat (self st)) = Some (best_stat_last (self st)) ->
        save_check logs epoch st = (Ok false, st)).
Proof.
  intros Hb Hinf accepted st.
  destruct (save_decisions_invariant epochs st0 [] Hb Hinf (List.Forall_nil _))
    as (Hb' & Hmin & Hlow).
  fold st in Hb', Hmin, Hlow. fold accepted in Hmin, Hlow.
  assert (Hstep : forall epoch logs v,
        skip_epochs (self st) <= epoch ->
        dict_get logs (save_best_stat (self st)) = Some v ->
        save_check logs epoch st =
          if float_lt v (best_stat_last (self st))
          then (Ok true, with_self (set_best_stat_last v (self st)) st)
          else (Ok false, st)).
  { intros epoch logs v He Hv. rewrite save_check_best_only_eq by exact Hb'.
    apply Z.ltb_ge in He. now rewrite He, Hv. }
  repeat split; try assumption.
  intros epoch logs He Hv. rewrite (Hstep epoch logs _ He Hv).
  now rewrite float_lt_irrefl.
Qed.

Lemma save_check_strict_improvement_witness :
  (save_decisions example_epochs (first_state example_self ∅) []).1
    = [float_1; float_2]
  /\ best_stat_last
       (self (save_decisions example_epochs (first_state example_self ∅) []).2)
     = float_min_list [float_1; float_2]
  /\ save_check [("loss", float_half)] 7
       (save_decisions example_epochs (first_state example_self ∅) []).2
     = (Ok true,
        with_self (set_best_stat_last float_half
                     (self (save_decisions example_epochs
                              (first_state example_self ∅) []).2))
          (save_decisions example_epochs (first_state example_self ∅) []).2).
Proof.
  pose proof (save_check_strict_improvement (first_state example_self ∅)
                example_epochs eq_refl eq_refl) as (Hmin & _ & Hstep & _).
  split; [reflexivity|]. split; [exact Hmin|].
  apply (Hstep 7 [("loss", float_half)] float_half); [simpl; lia|reflexivity].
Defined.

End SavePolicy.

(** ** Restart *)

Section Restart.

Lemma percent_mismatch (directory : string) :
  percent "checksum mismatch! directory: " [directory]
  = Raise (TypeError "not all arguments converted during string formatting").
Proof. reflexivity. Qed.

(** [restart_json] on a directory holding a descriptor that passes the
    checksum test (or with the test switched off). *)
Lemma restart_json_ok gParameters fs directory d w J :
  fs !! directory = Some d ->
  model_h5 d = Some w ->
  ckpt_info_json d = Some (JsonDoc J) ->
  disabled gParameters "checksum" = true
    \/ J !! "checksum" = Some (PStr (checksum_file w)) ->
  restart_json gParameters fs directory = Ok J.
Proof.
  intros Hd Hw HJ Hck. unfold restart_json, checksum_file_at, logger_info, read_model_h5, getitem.
  rewrite Hd. simpl. rewrite HJ, Hw. simpl.
  destruct (disabled gParameters "checksum"); simpl; [reflexivity|].
  destruct Hck as [|Hck]; [discriminate|].
  rewrite Hck. simpl. now rewrite String.eqb_refl.
Qed.

(** A complete, verified snapshot in ckpt-good is loaded. *)
Lemma restart_loads gParameters model fs d w J epoch :
  disabled gParameters "restart" = false ->
  fs !! dir_good = Some d ->
  model_h5 d = Some w ->
  ckpt_info_json d = Some (JsonDoc J) ->
  disabled gParameters "checksum" = true
    \/ J !! "checksum" = Some (PStr (checksum_file w)) ->
  J !! "epoch" = Some epoch -> format_i epoch = Ok tt ->
  is_Some (J !! "timestamp") ->
  restart gParameters model fs = (Ok (Some J), w).
Proof.
  intros Hr Hd Hw HJ Hck He Hf [ts Hts]. unfold restart.
  rewrite Hr, Hd. simpl. rewrite Hw.
  rewrite (restart_json_ok _ _ _ _ _ _ Hd Hw HJ Hck).
  unfold getitem. simpl. rewrite He, Hts. simpl. now rewrite Hf.
Qed.

(** What [restart_json] does when the recomputed checksum differs from the
    recorded one: evaluating the message of the exception it is about to
    raise fails, and [restart] leaves the model as it was. *)
Lemma restart_on_mismatch gParameters model fs d w J recorded :
  disabled gParameters "restart" = false ->
  disabled gParameters "checksum" = false ->
  fs !! dir_good = Some d ->
  model_h5 d = Some w ->
  ckpt_info_json d = Some (JsonDoc J) ->
  J !! "checksum" = Some recorded ->
  str_ne (checksum_file w) recorded = true ->
  restart_json gParameters fs dir_good
    = Raise (TypeError "not all arguments converted during string formatting")
  /\ restart gParameters model fs
    = (Raise (TypeError "not all arguments converted during string formatting"),
       model).
Proof.
  intros Hr Hc Hd Hw HJ Hrec Hne.
  assert (E : restart_json gParameters fs dir_good
    = Raise (TypeError "not all arguments converted during string formatting")).
  { unfold restart_json, checksum_file_at, logger_info, read_model_h5, getitem.
    rewrite Hd. simpl. rewrite HJ, Hw, Hc. simpl. rewrite Hrec. simpl.
    now rewrite Hne. }
  split; [exact E|].
  unfold restart. rewrite Hr, Hd. simpl. rewrite Hw. now rewrite E.
Qed.

(** C3. Restarting from a snapshot whose weights had one byte altered, with
    checksumming left enabled: the mismatch is detected and the weights are
    not loaded, but the exception that reaches the caller is the [TypeError]
    of the malformed message, not the checksum-mismatch exception. *)
Theorem restart_corrupted_weights :
  restart ∅ [] {[ dir_good := corrupted_good ]}
  = (Raise (TypeError "not all arguments converted during string formatting"), []).
Proof.
  apply (restart_on_mismatch ∅ [] {[ dir_good := corrupted_good ]}
           corrupted_good corrupted_weights example_descriptor
           (PStr "3421780262"));
    [reflexivity..|vm_compute; reflexivity].
Qed.

(** What [restart_json] does when the weights are there and the descriptor
    is not. *)
Lemma restart_json_no_descriptor gParameters fs directory d :
  fs !! directory = Some d ->
  ckpt_info_json d = None ->
  restart_json gParameters fs directory =
    if disabled gParameters "require_json"
    then Raise (FileNotFoundError (directory +:+ "/ckpt-info.json"))
    else Raise (Exception ("restart_json(): in: " +:+ directory
                           +:+ " model exists but not json!")).
Proof.
  intros Hd HJ. unfold restart_json. rewrite Hd. simpl. rewrite HJ.
  destruct (disabled gParameters "require_json"); reflexivity.
Qed.

(** C6. Weights without a descriptor, and [require_json] set to [False]:
    [restart_json] does not go on without the descriptor, it fails opening
    the file that is not there, and [restart] loads nothing. *)
Theorem restart_relaxed_no_descriptor :
  restart_json {[ "require_json" := PBool false ]} {[ dir_good := bare_good ]} dir_good
    = Raise (FileNotFoundError "save/ckpt-good/ckpt-info.json")
  /\ restart {[ "require_json" := PBool false ]} [] {[ dir_good := bare_good ]}
    = (Raise (FileNotFoundError "save/ckpt-good/ckpt-info.json"), []).
Proof.
  assert (E : restart_json {[ "require_json" := PBool false ]}
                {[ dir_good := bare_good ]} dir_good
              = Raise (FileNotFoundError "save/ckpt-good/ckpt-info.json")).
  { rewrite (restart_json_no_descriptor _ _ _ bare_good); reflexivity. }
  split; [exact E|].
  unfold restart. change (disabled _ "restart") with false. cbv iota.
  change (d ← _ !! dir_good; model_h5 d) with (Some example_weights).
  cbv iota. now rewrite E.
Qed.






(** C10. A truthy value under the key "restart", the string "OFF" among
    them, does not disable the restart: [disabled] is [True] only for a
    falsy value, and a valid snapshot in ckpt-good is loaded. *)
Theorem restart_truthy_setting (gParameters : gmap string pyval) (v : pyval)
  (model : list byte) (fs : gmap string directory) :
  gParameters !! "restart" = Some v ->
  truthy v = true ->
  truthy (PStr "OFF") = true
  /\ disabled gParameters "restart" = false
  /\ (forall d w J epoch,
        fs !! dir_good = Some d ->
        model_h5 d = Some w ->
        ckpt_info_json d = Some (JsonDoc J) ->
        disabled gParameters "checksum" = true
          \/ J !! "checksum" = Some (PStr (checksum_file w)) ->
        J !! "epoch" = Some epoch -> format_i epoch = Ok tt ->
        is_Some (J !! "timestamp") ->
        restart gParameters model fs = (Ok (Some J), w)).
Proof.
  intros Hv Ht.
  assert (Hd : disabled gParameters "restart" = false).
  { unfold disabled. now rewrite Hv, Ht. }
  split; [reflexivity|]. split; [exact Hd|].
  intros d w J epoch. now apply restart_loads.
Qed.

Lemma restart_truthy_setting_witness :
  disabled off_params "restart" = false
  /\ restart off_params [] {[ dir_good := example_good ]}
     = (Ok (Some example_descriptor), example_weights).
Proof.
  destruct (restart_truthy_setting off_params (PStr "OFF")
              [] {[ dir_good := example_good ]} eq_refl eq_refl)
    as (_ & Hd & Hload).
  split; [exact Hd|].
  apply (Hload example_good example_weights example_descriptor (PInt 3));
    try reflexivity; [right; vm_compute; reflexivity | eexists; reflexivity].
Defined.

End Restart.


(** ** Snapshot writer *)

Section Writer.

Import CandleCheckpointCallback.
Local Open Scope ckpt_scope.

Lemma mbind_ok {A B} (m : M A) (k : A -> M B) st a st' :
  m st = (Ok a, st') -> mbind m k st = k a st'.
Proof. intros H. unfold mbind. now rewrite H. Qed.

Lemma os_path_exists_some dir st d :
  fs st !! dir = Some d -> os_path_exists dir st = (Ok true, st).
Proof.
  intros H. unfold os_path_exists, mbind, get_fs, ret. rewrite H.
  now rewrite bool_decide_eq_true_2 by eauto.
Qed.

Lemma os_path_exists_none dir st :
  fs st !! dir = None -> os_path_exists dir st = (Ok false, st).
Proof.
  intros H. unfold os_path_exists, mbind, get_fs, ret. rewrite H.
  now rewrite bool_decide_eq_false_2 by (apply is_Some_None).
Qed.

Lemma os_makedirs_eq dir st :
  fs st !! dir = None ->
  os_makedirs dir st = (Ok tt, push (<[dir := empty_directory]> (fs st)) st).
Proof. intros H. unfold os_makedirs, mbind, get_fs. now rewrite H. Qed.

Lemma shutil_rmtree_eq dir st d :
  fs st !! dir = Some d ->
  shutil_rmtree dir st = (Ok tt, push (delete dir (fs st)) st).
Proof. intros H. unfold shutil_rmtree, mbind, get_fs. now rewrite H. Qed.

Lemma os_rename_eq src dst st d :
  fs st !! src = Some d -> fs st !! dst = None ->
  os_rename src dst st = (Ok tt, push (<[dst := d]> (delete src (fs st))) st).
Proof. intros H1 H2. unfold os_rename, mbind, get_fs. now rewrite H1, H2. Qed.

(** [save_check] neither reads nor changes the disk, and changes no field of
    the callback but [best_stat_last]. *)
Lemma save_check_frame logs epoch st r :
  (save_check logs epoch st).1 = Ok r ->
  exists s1,
    (forall f t, save_check logs epoch {| self := self st; fs := f; trace := t |}
                 = (Ok r, {| self := s1; fs := f; trace := t |}))
    /\ model s1 = model (self st)
    /\ checksum_enabled s1 = checksum_enabled (self st)
    /\ clean s1 = clean (self st)
    /\ logger s1 = logger (self st)
    /\ timestamp_last s1 = timestamp_last (self st).
Proof.
  unfold save_check, mbind, get_self, ret, raise, lift, put_self, with_self.
  cbn [self fs trace].
  destruct (epoch <? skip_epochs (self st)).
  { intros [= <-]. exists (self st). auto 6. }
  destruct (negb (truthy (save_best_only (self st)))).
  { intros [= <-]. exists (self st). auto 6. }
  destruct (dict_get logs (save_best_stat (self st))) as [v|].
  - destruct (float_lt v (best_stat_last (self st))); intros [= <-].
    + exists (set_best_stat_last v (self st)). auto 6.
    + exists (self st). auto 6.
  - rewrite percent_missing_stat. discriminate.
Qed.

(** [write_model] goes through when [checksum_file] is given a logger, if
    it is called at all, and [timestamp_last] is unset or a datetime. *)
Lemma write_model_eq dir epoch now st dw :
  fs st !! dir = Some dw ->
  (truthy (checksum_enabled (self st)) = true -> is_Some (logger (self st))) ->
  stamp_ok (timestamp_last (self st)) = true ->
  exists f1 f2 f3,
    write_model dir epoch now st
    = (Ok tt, {| self := set_timestamp_last now
                           (set_cksum_model (cksum_of (self st)) (self st));
                 fs := <[dir := written (self st) epoch now]> (fs st);
                 trace := f3 :: f2 :: f1 :: fs st :: trace st |})
    /\ (forall k, k <> dir ->
          f1 !! k = fs st !! k /\ f2 !! k = fs st !! k /\ f3 !! k = fs st !! k).
Proof.
  intros Hd Hlog Hts. destruct st as [s f t]. cbn [self fs trace] in *.
  assert (Hel : time_elapsed (timestamp_last s) now = Ok (elapsed_of s now)).
  { unfold elapsed_of. destruct (timestamp_last s) as [[]|]; try discriminate;
      reflexivity. }
  unfold write_model, model_save, checksum, write_json, json_dump.
  unfold mbind, get_self, get_fs, put_fs, put_self, lift, push, with_self.
  unfold cksum_of, written. cbn [self fs trace]. rewrite Hd. cbn [self fs trace].
  destruct (truthy (checksum_enabled s)) eqn:Hc.
  - destruct (Hlog eq_refl) as [l Hl].
    unfold checksum_file_at, read_model_h5, logger_info.
    cbn [self fs trace]. rewrite Hl, lookup_insert_eq.
    cbn [self fs trace model_h5 timestamp_last set_cksum_model cksum_model].
    rewrite Hel. cbn [self fs trace]. rewrite lookup_insert_eq.
    cbn [self fs trace model_h5 ckpt_info_json].
    do 3 eexists. split.
    + rewrite !insert_insert_eq. reflexivity.
    + intros k Hk. rewrite !lookup_insert_ne by congruence. auto.
  - cbn [self fs trace model_h5 timestamp_last set_cksum_model cksum_model].
    rewrite Hel. cbn [self fs trace]. rewrite lookup_insert_eq.
    cbn [self fs trace model_h5 ckpt_info_json].
    do 3 eexists. split.
    + rewrite !insert_insert_eq. reflexivity.
    + intros k Hk. rewrite !lookup_insert_ne by congruence. auto.
Qed.

Lemma on_epoch_end_makedirs epoch logs now st :
  fs st !! dir_work = None ->
  on_epoch_end epoch logs now st
  = on_epoch_end epoch logs now (push (<[dir_work := empty_directory]> (fs st)) st).
Proof.
  intros Hw. unfold on_epoch_end.
  rewrite (mbind_ok _ _ _ _ _ (os_path_exists_none _ _ Hw)).
  rewrite (mbind_ok _ _ _ _ _ (os_makedirs_eq _ _ Hw)).
  erewrite (mbind_ok (os_path_exists dir_work));
    [|apply (os_path_exists_some _ _ empty_directory); apply lookup_insert_eq].
  reflexivity.
Qed.

Lemma dirs_distinct :
  dir_work <> dir_good /\ dir_work <> dir_old /\ dir_good <> dir_old.
Proof. repeat split; discriminate. Qed.

(** Lookups in a disk built by the calls above. *)
Ltac disk_lookup :=
  repeat first
    [ rewrite lookup_insert_eq
    | rewrite lookup_delete_eq
    | rewrite lookup_insert_ne by (first [assumption | apply not_eq_sym; assumption])
    | rewrite lookup_delete_ne by (first [assumption | apply not_eq_sym; assumption]) ].

Ltac disk_side :=
  cbn [CandleCheckpointCallback.fs CandleCheckpointCallback.push
       CandleCheckpointCallback.self CandleCheckpointCallback.trace];
  disk_lookup; first [eassumption | reflexivity].

(** A save event on a disk where ckpt-work exists; [f0] is any disk with the
    same ckpt-good, the disk before ckpt-work was made for one. *)
Lemma save_event_from_work st epoch logs now dw s1 :
  fs st !! dir_work = Some dw ->
  (forall f t, save_check logs epoch {| self := self st; fs := f; trace := t |}
               = (Ok true, {| self := s1; fs := f; trace := t |})) ->
  clean s1 = clean (self st) ->
  (truthy (checksum_enabled s1) = true -> is_Some (logger s1)) ->
  stamp_ok (timestamp_last s1) = true ->
  exists st',
    on_epoch_end epoch logs now st = (Ok tt, st')
    /\ fs st' !! dir_good = Some (written s1 epoch now)
    /\ fs st' !! dir_work = None
    /\ fs st' !! dir_old
       = (if truthy (clean (self st)) then None else fs st !! dir_good)
    /\ (forall s, s ∈ all_states st' ->
          s ∈ all_states st
          \/ s !! dir_good = fs st !! dir_good
          \/ (s !! dir_good = None /\ s !! dir_old = fs st !! dir_good)
          \/ s !! dir_good = Some (written s1 epoch now))
    /\ (exists s, s ∈ all_states st'
          /\ s !! dir_good = Some (written s1 epoch now)
          /\ s !! dir_old = fs st !! dir_good)
    /\ self st' = set_timestamp_last now (set_cksum_model (cksum_of s1) s1).
Proof.
  intros Hw Hsc Hcl Hlog Hts. destruct st as [s f t]. cbn [self fs trace] in *.
  destruct dirs_distinct as (Hwg & Hwo & Hgo).
  unfold on_epoch_end.
  erewrite mbind_ok by (eapply os_path_exists_some; exact Hw).
  erewrite mbind_ok by reflexivity.
  erewrite mbind_ok by apply Hsc. cbn [negb].
  destruct (write_model_eq dir_work epoch now
              {| self := s1; fs := f; trace := t |} dw Hw Hlog Hts)
    as (f1 & f2 & f3 & Hwm & Hfr).
  erewrite mbind_ok by exact Hwm. cbn [self fs trace] in *.
  assert (Hf1 : f1 !! dir_good = f !! dir_good) by (apply Hfr; congruence).
  assert (Hf2 : f2 !! dir_good = f !! dir_good) by (apply Hfr; congruence).
  assert (Hf3 : f3 !! dir_good = f !! dir_good) by (apply Hfr; congruence).
  clear Hfr Hwm.
  destruct (f !! dir_old) as [dold|] eqn:Ho;
    [ erewrite mbind_ok by (eapply os_path_exists_some; disk_side);
      erewrite mbind_ok by (eapply shutil_rmtree_eq; disk_side)
    | erewrite mbind_ok by (eapply os_path_exists_none; disk_side);
      erewrite mbind_ok by reflexivity ];
    (erewrite mbind_ok by reflexivity);
    cbn [push fs self trace];
    (destruct (f !! dir_good) as [dg|] eqn:Hg;
     [ erewrite mbind_ok by (eapply os_path_exists_some; disk_side);
       erewrite mbind_ok
         by (erewrite mbind_ok by (eapply os_rename_eq; disk_side);
             reflexivity)
     | erewrite mbind_ok by (eapply os_path_exists_none; disk_side);
       erewrite mbind_ok by reflexivity ]);
    cbn [push fs self trace];
    (erewrite mbind_ok by (eapply os_rename_eq; disk_side));
    cbn [push fs self trace truthy clean set_timestamp_last set_cksum_model];
    rewrite ?Hcl.
  all: destruct (truthy (clean s)).
  all: eexists; split;
    [ first [reflexivity | eapply shutil_rmtree_eq; disk_side] |].
  all: cbn [push fs self trace all_states].
  all: split; [disk_side|]; split; [disk_side|]; split; [disk_side|].
  all: split; [|split; [|reflexivity]].
  all: try
    first [ eexists; split; [apply list_elem_of_here|]; split; disk_side
          | eexists; split;
            [apply list_elem_of_further, list_elem_of_here|];
            split; disk_side ].
  all: intros s0 Hin;
      repeat (apply elem_of_cons in Hin as [-> | Hin]);
      [ right; cbn [push fs self trace]; disk_lookup;
        rewrite ?Hf1, ?Hf2, ?Hf3; auto .. | ].
  all: left; apply list_elem_of_further; exact Hin.
Qed.

Lemma descriptor_lookups s cksum epoch now elapsed :
  descriptor s cksum epoch now elapsed !! "epoch" = Some (PInt epoch)
  /\ descriptor s cksum epoch now elapsed !! "checksum" = Some (PStr cksum)
  /\ descriptor s cksum epoch now elapsed !! "timestamp"
     = Some (PStr (dt_text now)).
Proof. unfold descriptor. repeat split; by simplify_map_eq. Qed.

Lemma written_complete s epoch now :
  complete_snapshot (written s epoch now) = true.
Proof.
  unfold complete_snapshot, written. cbn [model_h5 ckpt_info_json].
  destruct (descriptor_lookups
              (set_cksum_model
                 (if truthy (checksum_enabled s) then checksum_file (model s)
                  else "__DISABLED__") s)
              (if truthy (checksum_enabled s) then checksum_file (model s)
               else "__DISABLED__") epoch now (elapsed_of s now)) as (_ & -> & _).
  destruct (truthy (checksum_enabled s)).
  - now rewrite String.eqb_refl.
  - rewrite (String.eqb_refl "__DISABLED__"). apply orb_true_r.
Qed.

(** C1, as first stated: from a disk whose ckpt-good is a complete
    snapshot, ckpt-good would be present and complete in every state the disk
    passes through during a save.  Between the two renames it is absent. *)
Lemma rotation_good_never_missing_counterexample :
  let st' := (on_epoch_end 5 [("loss", float_1)] example_now example_save_state).2 in
  (exists d, fs example_save_state !! dir_good = Some d
             /\ complete_snapshot d = true)
  /\ (save_check [("loss", float_1)] 5 example_save_state).1 = Ok true
  /\ (on_epoch_end 5 [("loss", float_1)] example_now example_save_state).1 = Ok tt
  /\ ~ (forall s, s ∈ all_states st' ->
          exists d, s !! dir_good = Some d /\ complete_snapshot d = true).
Proof.
  intros st'.
  split; [exists example_good; split; vm_compute; reflexivity|].
  split; [vm_compute; reflexivity|].
  split; [vm_compute; reflexivity|].
  intros H.
  assert (Hs : existsb (fun s => match s !! dir_good with
                                 | None => true
                                 | Some _ => false
                                 end) (all_states st') = true)
    by (vm_compute; reflexivity).
  apply existsb_exists in Hs as (s & Hin & Hnone).
  apply list_elem_of_In in Hin.
  destruct (H s Hin) as (d & Hd & _). now rewrite Hd in Hnone.
Qed.

(** C1. A save event on a disk whose ckpt-good, if there is one, is a
    complete snapshot, by a callback that has a logger if it checksums and
    whose [timestamp_last] is unset or the time of an earlier descriptor.
    The call completes; afterwards ckpt-good holds the
    fully written weights of the model with a descriptor recording the epoch
    and their checksum, ckpt-work is gone and ckpt-old is the previous
    ckpt-good, or gone under the clean policy.  In every state the disk
    passes through, ckpt-good is the previous snapshot, or absent while
    ckpt-old holds the previous snapshot, or the new snapshot: it is never
    partially written.  The state right after the work-to-good rename, with
    ckpt-old not yet cleaned, is among them, and a restart from any disk
    whose ckpt-good is the new snapshot loads it. *)
Theorem rotation_keeps_good (st : state) (epoch : Z)
  (logs : list (string * spec_float)) (now : datetime) :
  (save_check logs epoch st).1 = Ok true ->
  (forall d, fs st !! dir_good = Some d -> complete_snapshot d = true) ->
  (truthy (checksum_enabled (self st)) = true -> is_Some (logger (self st))) ->
  stamp_ok (timestamp_last (self st)) = true ->
  exists st' new D,
    on_epoch_end epoch logs now st = (Ok tt, st')
    /\ model_h5 new = Some (model (self st))
    /\ ckpt_info_json new = Some (JsonDoc D)
    /\ D !! "epoch" = Some (PInt epoch)
    /\ D !! "checksum"
       = Some (PStr (if truthy (checksum_enabled (self st))
                     then checksum_file (model (self st)) else "__DISABLED__"))
    /\ complete_snapshot new = true
    /\ fs st' !! dir_good = Some new
    /\ fs st' !! dir_work = None
    /\ fs st' !! dir_old
       = (if truthy (clean (self st)) then None else fs st !! dir_good)
    /\ (forall s, s ∈ all_states st' ->
          s ∈ trace st
          \/ ((s !! dir_good = fs st !! dir_good
               \/ (s !! dir_good = None /\ s !! dir_old = fs st !! dir_good)
               \/ s !! dir_good = Some new)
              /\ forall d, s !! dir_good = Some d -> complete_snapshot d = true))
    /\ (exists s, s ∈ all_states st'
          /\ s !! dir_good = Some new /\ s !! dir_old = fs st !! dir_good)
    /\ (forall s gParameters m,
          s !! dir_good = Some new ->
          disabled gParameters "restart" = false ->
          disabled gParameters "checksum" = true
            \/ truthy (checksum_enabled (self st)) = true ->
          restart gParameters m s = (Ok (Some D), model (self st))).
Proof.
  intros Hsave Hgood Hlog Hstamp.
  destruct (save_check_frame logs epoch st true Hsave)
    as (s1 & Hsc & Hm & Hce & Hcl & Hlg & Htl).
  rewrite <- Hce, <- Hlg in Hlog. rewrite <- Htl in Hstamp.
  destruct dirs_distinct as (Hwg & Hwo & Hgo).
  pose proof (written_complete s1 epoch now) as Hcomplete.
  destruct (descriptor_lookups
              (set_cksum_model
                 (if truthy (checksum_enabled s1) then checksum_file (model s1)
                  else "__DISABLED__") s1)
              (if truthy (checksum_enabled s1) then checksum_file (model s1)
               else "__DISABLED__") epoch now (elapsed_of s1 now))
    as (Hep & Hck & Hts).
  assert (Hstates : forall s : gmap string directory,
            (s !! dir_good = fs st !! dir_good
             \/ (s !! dir_good = None /\ s !! dir_old = fs st !! dir_good)
             \/ s !! dir_good = Some (written s1 epoch now)) ->
            forall d, s !! dir_good = Some d -> complete_snapshot d = true).
  { intros s [E|[[E _]|E]] d Hd.
    - apply Hgood. congruence.
    - congruence.
    - congruence. }
  assert (Hfrom : exists st',
    on_epoch_end epoch logs now st = (Ok tt, st')
    /\ fs st' !! dir_good = Some (written s1 epoch now)
    /\ fs st' !! dir_work = None
    /\ fs st' !! dir_old
       = (if truthy (clean (self st)) then None else fs st !! dir_good)
    /\ (forall s, s ∈ all_states st' ->
          s ∈ trace st
          \/ s !! dir_good = fs st !! dir_good
          \/ (s !! dir_good = None /\ s !! dir_old = fs st !! dir_good)
          \/ s !! dir_good = Some (written s1 epoch now))
    /\ (exists s, s ∈ all_states st'
          /\ s !! dir_good = Some (written s1 epoch now)
          /\ s !! dir_old = fs st !! dir_good)).
  { destruct (fs st !! dir_work) as [dw|] eqn:Hw.
    - destruct (save_event_from_work st epoch logs now dw s1 Hw Hsc Hcl
                  Hlog Hstamp)
        as (st' & Hrun & Hg' & Hw' & Ho' & Hall & Hex & _).
      exists st'. repeat (split; [assumption|]). split; [|exact Hex].
      intros s Hs. destruct (Hall s Hs) as [Hin|Hst]; [|now right].
      unfold all_states in Hin. apply elem_of_cons in Hin as [->|Hin]; auto.
    - rewrite (on_epoch_end_makedirs _ _ _ _ Hw).
      destruct (save_event_from_work
                  (push (<[dir_work := empty_directory]> (fs st)) st)
                  epoch logs now empty_directory s1
                  ltac:(apply lookup_insert_eq) Hsc Hcl Hlog Hstamp)
        as (st' & Hrun & Hg' & Hw' & Ho' & Hall & Hex & _).
      cbn [push fs self trace] in *.
      rewrite !lookup_insert_ne in * by assumption.
      exists st'. repeat (split; [assumption|]). split; [|exact Hex].
      intros s Hs. destruct (Hall s Hs) as [Hin|Hst]; [|now right].
      unfold all_states in Hin. cbn [push fs trace] in Hin.
      apply elem_of_cons in Hin as [->|Hin].
      { right. left. now rewrite lookup_insert_ne by assumption. }
      apply elem_of_cons in Hin as [->|Hin]; auto. }
  destruct Hfrom as (st' & Hrun & Hg' & Hw' & Ho' & Hall & Hex).
  exists st', (written s1 epoch now). eexists.
  split; [exact Hrun|].
  split; [cbn [written model_h5]; now rewrite Hm|].
  split; [reflexivity|].
  split; [exact Hep|].
  split; [rewrite Hck, Hce, Hm; reflexivity|].
  split; [exact Hcomplete|].
  split; [exact Hg'|]. split; [exact Hw'|]. split; [exact Ho'|].
  split.
  { intros s Hs. destruct (Hall s Hs) as [Hin|Hst]; [now left|right].
    split; [exact Hst|]. now apply Hstates. }
  split; [exact Hex|].
  intros s gParameters m Hs Hr Hcheck.
  rewrite <- Hm.
  eapply restart_loads; try eassumption; try reflexivity.
  - destruct Hcheck as [Hc|Hc]; [now left|right].
    rewrite Hck. rewrite <- Hce in Hc. now rewrite Hc.
  - eauto.
Qed.

Lemma rotation_keeps_good_witness :
  exists st' new,
    on_epoch_end 5 [("loss", float_1)] example_now example_save_state = (Ok tt, st')
    /\ fs st' !! dir_good = Some new
    /\ model_h5 new = Some corrupted_weights
    /\ complete_snapshot new = true
    /\ fs st' !! dir_old = Some example_good
    /\ (fst (restart ∅ [] (fs st'))
          = Ok (ckpt_info_json new ≫= fun j =>
                  match j with JsonDoc D => Some D | Garbled => None end)
        /\ snd (restart ∅ [] (fs st')) = corrupted_weights).
Proof.
  destruct (rotation_keeps_good example_save_state 5 [("loss", float_1)]
              example_now)
    as (st' & new & D & Hrun & Hm & HJ & _ & _ & Hc & Hg & _ & Ho & _ & _ & Hre).
  - vm_compute. reflexivity.
  - intros d Hd. unfold example_save_state, first_state in Hd.
    cbn [fs] in Hd. rewrite lookup_singleton_eq in Hd.
    injection Hd as <-. vm_compute. reflexivity.
  - intros _. eexists. reflexivity.
  - reflexivity.
  - exists st', new. split; [exact Hrun|]. split; [exact Hg|].
    split; [exact Hm|]. split; [exact Hc|]. split; [exact Ho|].
    rewrite (Hre (fs st') ∅ [] Hg); [|reflexivity|right; reflexivity].
    rewrite HJ. split; reflexivity.
Defined.

End Writer.

(** * Further properties *)

(** ** What the checksum detects *)

Section CrcDetection.

Import zlib.

Lemma testbit_32_small c : 0 <= c < 2 ^ 32 -> Z.testbit c 32 = false.
Proof.
  intros Hc. apply Z.testbit_false; [lia|].
  rewrite Z.div_small by lia. reflexivity.
Qed.

(** The bit shifted out is kept as the top bit of the result. *)
Lemma crc_bit_top c : 0 <= c < 2 ^ 32 -> Z.testbit (crc_bit c) 31 = Z.testbit c 0.
Proof.
  intros Hc. unfold crc_bit.
  assert (Hs : Z.testbit (Z.shiftr c 1) 31 = false).
  { rewrite Z.shiftr_spec by lia. now apply testbit_32_small. }
  destruct (Z.testbit c 0).
  - rewrite Z.lxor_spec, Hs. reflexivity.
  - exact Hs.
Qed.

Lemma lxor_cancel_r a b m : Z.lxor a m = Z.lxor b m -> a = b.
Proof.
  intros H.
  rewrite <- (Z.lxor_0_r a), <- (Z.lxor_0_r b), <- (Z.lxor_nilpotent m).
  rewrite <- !Z.lxor_assoc. now rewrite H.
Qed.

Lemma lxor_cancel_l a b m : Z.lxor m a = Z.lxor m b -> a = b.
Proof. rewrite !(Z.lxor_comm m). apply lxor_cancel_r. Qed.

Lemma crc_bit_inj c c' :
  0 <= c < 2 ^ 32 -> 0 <= c' < 2 ^ 32 -> crc_bit c = crc_bit c' -> c = c'.
Proof.
  intros Hc Hc' E.
  assert (Hb : Z.testbit c 0 = Z.testbit c' 0).
  { rewrite <- (crc_bit_top c Hc), <- (crc_bit_top c' Hc'). now rewrite E. }
  unfold crc_bit in E. rewrite <- Hb in E.
  assert (Hs : Z.shiftr c 1 = Z.shiftr c' 1).
  { destruct (Z.testbit c 0); [now apply lxor_cancel_r in E|exact E]. }
  rewrite <- !Z.div2_spec in Hs. rewrite !Z.bit0_odd in Hb.
  rewrite (Z.div2_odd c), (Z.div2_odd c'). now rewrite Hs, Hb.
Qed.

Lemma crc_bits_range n c :
  0 <= c < 2 ^ 32 -> 0 <= Nat.iter n crc_bit c < 2 ^ 32.
Proof.
  intros Hc. induction n as [|n IH]; simpl; [exact Hc|].
  now apply crc_bit_range.
Qed.

Lemma crc_bits_inj n c c' :
  0 <= c < 2 ^ 32 -> 0 <= c' < 2 ^ 32 ->
  Nat.iter n crc_bit c = Nat.iter n crc_bit c' -> c = c'.
Proof.
  intros Hc Hc'. induction n as [|n IH]; simpl; [auto|].
  intros E. apply IH. apply crc_bit_inj; auto using crc_bits_range.
Qed.

Lemma byte_val_inj b b' : byte_val b = byte_val b' -> b = b'.
Proof.
  unfold byte_val. intros E. apply N2Z.inj in E.
  pose proof (Byte.of_to_N b) as H. rewrite E, Byte.of_to_N in H.
  now injection H.
Qed.

(** The state after a byte determines the state before it, and the byte. *)
Lemma crc_byte_inj_state c c' b :
  0 <= c < 2 ^ 32 -> 0 <= c' < 2 ^ 32 -> crc_byte c b = crc_byte c' b -> c = c'.
Proof.
  intros Hc Hc' E. unfold crc_byte in E.
  apply crc_bits_inj in E; auto using lxor_range, byte_val_range.
  now apply lxor_cancel_r in E.
Qed.

Lemma crc_byte_inj_byte c b b' :
  0 <= c < 2 ^ 32 -> crc_byte c b = crc_byte c b' -> b = b'.
Proof.
  intros Hc E. unfold crc_byte in E.
  apply crc_bits_inj in E; auto using lxor_range, byte_val_range.
  apply lxor_cancel_l in E. now apply byte_val_inj.
Qed.

Lemma crc_fold_inj data c c' :
  0 <= c < 2 ^ 32 -> 0 <= c' < 2 ^ 32 ->
  fold_left crc_byte data c = fold_left crc_byte data c' -> c = c'.
Proof.
  revert c c'. induction data as [|b data IH]; intros c c' Hc Hc'; simpl; [auto|].
  intros E. apply IH in E; auto using crc_byte_range.
  now apply crc_byte_inj_state in E.
Qed.

(** Replacing one byte of the data changes the checksum. *)
Lemma crc32_byte_substitution (front back : list byte) (b b' : byte) (value : Z) :
  b <> b' ->
  crc32 (front ++ b :: back) value <> crc32 (front ++ b' :: back) value.
Proof.
  intros Hne E. unfold crc32 in E. apply lxor_cancel_r in E.
  rewrite !fold_left_app in E. simpl in E.
  assert (Hi : 0 <= fold_left crc_byte front
                      (Z.lxor (value mod 2 ^ 32) mask32) < 2 ^ 32).
  { apply crc_fold_range, lxor_range; [|apply mask32_range].
    apply Z.mod_pos_bound. lia. }
  apply crc_fold_inj in E; auto using crc_byte_range.
  now apply crc_byte_inj_byte in E.
Qed.

End CrcDetection.

Lemma checksum_file_crc32 contents :
  checksum_file contents = pretty (zlib.crc32 contents 0).
Proof.
  unfold checksum_file. f_equal. apply checksum_loop_crc32; [reflexivity|lia].
Qed.

(** X1. [checksum_file] is the decimal rendering of a 32-bit value, and two
    files get the same checksum string exactly when their CRC-32 values are
    equal: comparing the strings, as [restart_json] does, loses nothing. *)
Theorem checksum_file_exact (a b : list byte) :
  (exists z, 0 <= z < 2 ^ 32 /\ checksum_file a = pretty z)
  /\ (checksum_file a = checksum_file b <-> zlib.crc32 a 0 = zlib.crc32 b 0)
  /\ str_ne (checksum_file a) (PStr (checksum_file b))
     = negb (zlib.crc32 a 0 =? zlib.crc32 b 0).
Proof.
  rewrite !checksum_file_crc32.
  assert (Hiff : pretty (zlib.crc32 a 0) = pretty (zlib.crc32 b 0)
                 <-> zlib.crc32 a 0 = zlib.crc32 b 0).
  { split; [apply pretty_Z_inj|now intros ->]. }
  split; [exists (zlib.crc32 a 0); split; [apply crc32_range|reflexivity]|].
  split; [exact Hiff|].
  unfold str_ne. f_equal.
  destruct (Z.eqb_spec (zlib.crc32 a 0) (zlib.crc32 b 0)) as [E|E].
  - rewrite E. apply String.eqb_refl.
  - apply String.eqb_neq. intros H. now apply Hiff in H.
Qed.

(** X2. Altering any single byte of a file, anywhere in it, changes what
    [checksum_file] returns. *)
Theorem checksum_file_detects_byte_change (front back : list byte) (b b' : byte) :
  b <> b' ->
  checksum_file (front ++ b :: back) <> checksum_file (front ++ b' :: back).
Proof.
  intros Hne E. rewrite !checksum_file_crc32 in E.
  apply pretty_Z_inj in E. now apply crc32_byte_substitution in E.
Qed.

Lemma checksum_file_detects_byte_change_witness :
  checksum_file ([x31; x32; x33; x34] ++ x35 :: [x36; x37])%list
  <> checksum_file ([x31; x32; x33; x34] ++ x00 :: [x36; x37])%list.
Proof.
  apply (checksum_file_detects_byte_change [x31; x32; x33; x34]
           [x36; x37] x35 x00).
  discriminate.
Defined.

(** X3. With checksumming not disabled, [restart] never loads a weights
    file that differs in one byte from the file whose checksum the descriptor
    records: it raises and leaves the model as it was. *)
Theorem restart_rejects_byte_change (gParameters : gmap string pyval)
  (model : list byte) (fs : gmap string directory) (d : directory)
  (J : gmap string pyval) (front back : list byte) (b b' : byte) :
  disabled gParameters "restart" = false ->
  disabled gParameters "checksum" = false ->
  fs !! dir_good = Some d ->
  ckpt_info_json d = Some (JsonDoc J) ->
  J !! "checksum" = Some (PStr (checksum_file (front ++ b :: back))) ->
  model_h5 d = Some (front ++ b' :: back)%list ->
  b <> b' ->
  exists e, restart gParameters model fs = (Raise e, model).
Proof.
  intros Hr Hc Hd HJ Hck Hw Hne. eexists.
  eapply restart_on_mismatch; try eassumption.
  unfold str_ne. apply negb_true_iff, String.eqb_neq.
  now apply checksum_file_detects_byte_change.
Qed.

Lemma restart_rejects_byte_change_witness :
  exists e, restart ∅ [] {[ dir_good := corrupted_good ]} = (Raise e, []).
Proof.
  apply (restart_rejects_byte_change ∅ [] {[ dir_good := corrupted_good ]}
           corrupted_good example_descriptor
           [x31; x32; x33; x34; x35; x36; x37; x38] [] x39 x38);
    first [discriminate | reflexivity | vm_compute; reflexivity].
Defined.

(** ** The resolver and the options read through it *)

(** X4. [param] with default [True] is truthy exactly when [disabled] is
    false, and with default [False] exactly when [enabled] is truthy.  So
    the callback, which reads "checksum" with [param], computes a checksum
    exactly when [restart_json], which reads it with [disabled], verifies
    one. *)
Theorem param_agrees_with_flags (gParameters : gmap string pyval) (key : string) :
  truthy (param gParameters key (PBool true)) = negb (disabled gParameters key)
  /\ truthy (param gParameters key (PBool false)) = truthy (enabled gParameters key)
  /\ (forall s, CandleCheckpointCallback.scan_params gParameters = Some s ->
        truthy (CandleCheckpointCallback.checksum_enabled s)
        = negb (disabled gParameters "checksum")).
Proof.
  assert (H : forall k, truthy (param gParameters k (PBool true))
                        = negb (disabled gParameters k)).
  { intros k. unfold param, disabled.
    destruct (gParameters !! k); [now rewrite negb_involutive|reflexivity]. }
  split; [apply H|]. split.
  - unfold param, enabled. now destruct (gParameters !! key).
  - intros s Hs. rewrite <- H.
    unfold CandleCheckpointCallback.scan_params in Hs.
    destruct (param gParameters "skip_epochs" (PInt 0)); try discriminate.
    destruct (param gParameters "save_best_stat" (PStr "loss")); try discriminate.
    destruct (param gParameters "best_stat_last" PNone); try discriminate;
      now injection Hs as <-.
Qed.

(** X5. [scan_params] starts [best_stat_last] at infinity when the
    configuration has no "best_stat_last" or has [None] there, and keeps a
    configured float. *)
Theorem scan_params_best_stat_last (gParameters : gmap string pyval)
  (s : CandleCheckpointCallback.t) :
  CandleCheckpointCallback.scan_params gParameters = Some s ->
  CandleCheckpointCallback.best_stat_last s =
    match gParameters !! "best_stat_last" with
    | Some (PFloat f) => f
    | _ => math_inf
    end.
Proof.
  unfold CandleCheckpointCallback.scan_params. intros Hs.
  destruct (param gParameters "skip_epochs" (PInt 0)); try discriminate.
  destruct (param gParameters "save_best_stat" (PStr "loss")); try discriminate.
  unfold param at 1 in Hs.
  destruct (gParameters !! "best_stat_last") as [[]|]; try discriminate;
    now injection Hs as <-.
Qed.

Lemma scan_params_best_stat_last_witness :
  CandleCheckpointCallback.best_stat_last example_self = math_inf.
Proof.
  exact (scan_params_best_stat_last example_params example_self eq_refl).
Defined.

(** ** More on the save policy *)

Section SavePolicyMore.

Import CandleCheckpointCallback.

(** Every way a call of [save_check] can go.  The disk plays no part. *)
Lemma save_check_outcome logs epoch s :
  (forall f t, save_check logs epoch {| self := s; fs := f; trace := t |}
               = (Ok false, {| self := s; fs := f; trace := t |}))
  \/ (truthy (save_best_only s) = false /\ skip_epochs s <= epoch
      /\ forall f t, save_check logs epoch {| self := s; fs := f; trace := t |}
                     = (Ok true, {| self := s; fs := f; trace := t |}))
  \/ (exists v,
        truthy (save_best_only s) = true /\ skip_epochs s <= epoch
        /\ dict_get logs (save_best_stat s) = Some v
        /\ float_lt v (best_stat_last s) = true
        /\ forall f t, save_check logs epoch {| self := s; fs := f; trace := t |}
                       = (Ok true, {| self := set_best_stat_last v s;
                                      fs := f; trace := t |}))
  \/ (truthy (save_best_only s) = true /\ skip_epochs s <= epoch
      /\ dict_get logs (save_best_stat s) = None
      /\ forall f t, save_check logs epoch {| self := s; fs := f; trace := t |}
                     = (Raise (Exception
                          ("CandleCheckpointCallback: save_best_stat='"
                           +:+ save_best_stat s
                           +:+ "' not in list of model metrics: "
                           +:+ str_keys logs)),
                        {| self := s; fs := f; trace := t |})).
Proof.
  unfold save_check, mbind, get_self, ret, raise, lift, put_self, with_self.
  cbn [self fs trace].
  destruct (Z.ltb_spec epoch (skip_epochs s)) as [Hlt|Hge]; [now left|].
  destruct (truthy (save_best_only s)) eqn:Hb; cbn [negb].
  2:{ right. left. auto. }
  destruct (dict_get logs (save_best_stat s)) as [v|] eqn:Hv.
  - destruct (float_lt v (best_stat_last s)) eqn:Hf; [|now left].
    right. right. left. exists v. auto.
  - right. right. right. rewrite percent_missing_stat. auto.
Qed.

(** X6. When [save_best_only] is not set, every epoch at or past
    [skip_epochs] is saved, whatever the logs hold, the tracked metric
    missing included, and the callback is left unchanged. *)
Theorem save_check_save_everything (st : state)
  (logs : list (string * spec_float)) (epoch : Z) :
  truthy (save_best_only (self st)) = false ->
  skip_epochs (self st) <= epoch ->
  save_check logs epoch st = (Ok true, st).
Proof.
  intros Hb He. destruct st as [s f t]. cbn [self] in *.
  destruct (save_check_outcome logs epoch s)
    as [H|[(_ & _ & H)|[(v & Hb' & _)|(Hb' & _)]]]; try congruence.
  specialize (H f t). unfold save_check, mbind, get_self, ret in H.
  cbn [self] in H. apply Z.ltb_ge in He. rewrite He, Hb in H. discriminate.
Qed.

Lemma save_check_save_everything_witness :
  save_check [] 0 (first_state plain_self ∅) = (Ok true, first_state plain_self ∅).
Proof.
  apply (save_check_save_everything (first_state plain_self ∅) [] 0);
    [reflexivity | simpl; lia].
Defined.

(** X7. [save_check] leaves the disk alone and changes nothing in the
    callback but [best_stat_last], which it only ever lowers; over a whole
    run [best_stat_last] ends where it started or strictly below. *)
Theorem best_stat_last_only_decreases
  (epochs : list (Z * list (string * spec_float))) (st : state)
  (accepted : list spec_float) :
  (forall epoch logs,
     fs (save_check logs epoch st).2 = fs st
     /\ trace (save_check logs epoch st).2 = trace st
     /\ (self (save_check logs epoch st).2 = self st
         \/ exists v,
              self (save_check logs epoch st).2 = set_best_stat_last v (self st)
              /\ float_lt v (best_stat_last (self st)) = true))
  /\ (best_stat_last (self (save_decisions epochs st accepted).2)
        = best_stat_last (self st)
      \/ float_lt (best_stat_last (self (save_decisions epochs st accepted).2))
                  (best_stat_last (self st)) = true).
Proof.
  assert (Hone : forall st0 epoch logs,
     fs (save_check logs epoch st0).2 = fs st0
     /\ trace (save_check logs epoch st0).2 = trace st0
     /\ (self (save_check logs epoch st0).2 = self st0
         \/ exists v,
              self (save_check logs epoch st0).2 = set_best_stat_last v (self st0)
              /\ float_lt v (best_stat_last (self st0)) = true)).
  { intros [s f t] epoch logs. cbn [self fs trace].
    destruct (save_check_outcome logs epoch s)
      as [H|[(_ & _ & H)|[(v & _ & _ & _ & Hf & H)|(_ & _ & _ & H)]]];
      rewrite H; cbn [snd self fs trace]; eauto 6. }
  split; [intros epoch logs; apply Hone|].
  revert st accepted. induction epochs as [|[epoch logs] epochs IH];
    intros st accepted; [now left|].
  cbn [save_decisions].
  destruct (Hone st epoch logs) as (_ & _ & Hself).
  destruct (save_check logs epoch st) as [[[]|e] st'] eqn:E; cbn [snd] in *.
  3:{ destruct Hself as [->|(v & -> & Hv)]; [now left|now right]. }
  all: match goal with
       | IH : forall st1 acc1, _ |- context [save_decisions _ ?st1 ?acc] =>
           destruct (IH st1 acc) as [IH'|IH']; rewrite ?IH'
       end;
    destruct Hself as [Hs|(v & Hs & Hv)]; rewrite Hs in *; cbn in *; auto;
    right; eauto using float_lt_trans.
Qed.

(** X8. NaN never triggers a save under best-only saving: a metric that is
    NaN is not an improvement, and once [best_stat_last] is NaN no value is. *)
Theorem save_check_nan (st : state) (logs : list (string * spec_float))
  (epoch : Z) (v : spec_float) :
  truthy (save_best_only (self st)) = true ->
  dict_get logs (save_best_stat (self st)) = Some v ->
  v = S754_nan \/ best_stat_last (self st) = S754_nan ->
  save_check logs epoch st = (Ok false, st).
Proof.
  intros Hb Hv Hnan. rewrite save_check_best_only_eq by exact Hb.
  destruct (epoch <? skip_epochs (self st)); [reflexivity|].
  rewrite Hv.
  assert (Hf : float_lt v (best_stat_last (self st)) = false).
  { destruct Hnan as [->| ->]; [reflexivity|]. now destruct v as [[]|[]| |[]]. }
  now rewrite Hf.
Qed.

Lemma save_check_nan_witness :
  save_check [("loss", S754_nan)] 5 (first_state example_self ∅)
  = (Ok false, first_state example_self ∅).
Proof.
  apply (save_check_nan (first_state example_self ∅) [("loss", S754_nan)] 5
           S754_nan); [reflexivity | reflexivity | now left].
Defined.

End SavePolicyMore.

(** ** More on restart *)

Section RestartMore.

(** X9. What [restart] has done can be read off its result.  If it returns
    a descriptor, that is the descriptor stored in ckpt-good, it has an epoch
    and a timestamp, the model now holds the weights stored beside it, and
    unless checksumming is disabled these weights have the checksum the
    descriptor records.  If it returns [None], restart is disabled or
    ckpt-good holds no weights file, and the model is exactly as it was. *)
Theorem restart_result (gParameters : gmap string pyval) (model : list byte)
  (fs : gmap string directory) (r : option (gmap string pyval))
  (model' : list byte) :
  restart gParameters model fs = (Ok r, model') ->
  match r with
  | Some J =>
      disabled gParameters "restart" = false
      /\ (exists d, fs !! dir_good = Some d
                    /\ ckpt_info_json d = Some (JsonDoc J)
                    /\ model_h5 d = Some model')
      /\ is_Some (J !! "epoch") /\ is_Some (J !! "timestamp")
      /\ (disabled gParameters "checksum" = true
          \/ J !! "checksum" = Some (PStr (checksum_file model')))
  | None =>
      model' = model
      /\ (disabled gParameters "restart" = true
          \/ (d ← fs !! dir_good; model_h5 d) = None)
  end.
Proof.
  unfold restart.
  destruct (disabled gParameters "restart") eqn:Hr; [intros [= <- <-]; auto|].
  destruct (fs !! dir_good) as [d|] eqn:Hd; [|intros [= <- <-]; auto]. cbn.
  destruct (model_h5 d) as [w|] eqn:Hw; [|intros [= <- <-]; auto].
  unfold restart_json, checksum_file_at, logger_info, read_model_h5, getitem. rewrite Hd. cbn.
  destruct (ckpt_info_json d) as [[|J]|] eqn:HJ; cbn.
  - discriminate.
  - destruct (disabled gParameters "checksum") eqn:Hc; cbn.
    + destruct (J !! "epoch") as [e|] eqn:He; cbn; [|discriminate].
      destruct (J !! "timestamp") as [ts|] eqn:Hts; cbn; [|discriminate].
      destruct (format_i e); cbn; [|discriminate].
      intros [= <- <-]. repeat split; eauto.
    + rewrite Hw. cbn.
      destruct (J !! "checksum") as [c|] eqn:Hck; cbn; [|discriminate].
      destruct (str_ne (checksum_file w) c) eqn:Hne; cbn; [discriminate|].
      destruct (J !! "epoch") as [e|] eqn:He; cbn; [|discriminate].
      destruct (J !! "timestamp") as [ts|] eqn:Hts; cbn; [|discriminate].
      destruct (format_i e); cbn; [|discriminate].
      intros [= <- <-]. repeat split; eauto. right.
      destruct c; try discriminate. cbn in Hne.
      apply negb_false_iff, String.eqb_eq in Hne. now subst.
  - destruct (negb (disabled gParameters "require_json")); discriminate.
Qed.

Lemma restart_result_witness :
  disabled ∅ "restart" = false
  /\ (exists d, ({[ dir_good := example_good ]} : gmap string directory) !! dir_good
                = Some d
                /\ ckpt_info_json d = Some (JsonDoc example_descriptor)
                /\ model_h5 d = Some example_weights)
  /\ is_Some (example_descriptor !! "epoch")
  /\ is_Some (example_descriptor !! "timestamp")
  /\ (disabled ∅ "checksum" = true
      \/ example_descriptor !! "checksum"
         = Some (PStr (checksum_file example_weights))).
Proof.
  apply (restart_result ∅ corrupted_weights {[ dir_good := example_good ]}
           (Some example_descriptor) example_weights).
  vm_compute. reflexivity.
Defined.

(** X10. A descriptor without the keys [restart] reads makes it fail with a
    [KeyError] and load nothing: "checksum" when checksumming is not
    disabled, then "epoch", then "timestamp". *)
Theorem restart_missing_key (gParameters : gmap string pyval)
  (model : list byte) (fs : gmap string directory) (d : directory)
  (w : list byte) (J : gmap string pyval) :
  disabled gParameters "restart" = false ->
  fs !! dir_good = Some d ->
  model_h5 d = Some w ->
  ckpt_info_json d = Some (JsonDoc J) ->
  (disabled gParameters "checksum" = false -> J !! "checksum" = None ->
   restart gParameters model fs = (Raise (KeyError "checksum"), model))
  /\ (disabled gParameters "checksum" = true
        \/ J !! "checksum" = Some (PStr (checksum_file w)) ->
      (J !! "epoch" = None ->
       restart gParameters model fs = (Raise (KeyError "epoch"), model))
      /\ (is_Some (J !! "epoch") -> J !! "timestamp" = None ->
          restart gParameters model fs = (Raise (KeyError "timestamp"), model))).
Proof.
  intros Hr Hd Hw HJ. split.
  - intros Hc Hck. unfold restart, restart_json, checksum_file_at, logger_info, read_model_h5, getitem.
    rewrite Hr, Hd. cbn. rewrite Hw, HJ. cbn. rewrite Hc. cbn.
    rewrite ?Hw. cbn. now rewrite Hck.
  - intros Hck. unfold restart. rewrite Hr, Hd. cbn. rewrite Hw.
    rewrite (restart_json_ok _ _ _ _ _ _ Hd Hw HJ Hck).
    unfold getitem. cbn. split.
    + now intros ->.
    + intros [e ->] ->. reflexivity.
Qed.

Lemma restart_missing_key_witness :
  restart ∅ [] {[ dir_good := {| model_h5 := Some example_weights;
                                 ckpt_info_json := Some (JsonDoc ∅) |} ]}
    = (Raise (KeyError "checksum"), [])
  /\ restart {[ "checksum" := PBool false ]} []
       {[ dir_good := {| model_h5 := Some example_weights;
                         ckpt_info_json := Some (JsonDoc ∅) |} ]}
    = (Raise (KeyError "epoch"), []).
Proof.
  split.
  - apply (restart_missing_key ∅ []
             {[ dir_good := {| model_h5 := Some example_weights;
                               ckpt_info_json := Some (JsonDoc ∅) |} ]}
             {| model_h5 := Some example_weights;
                ckpt_info_json := Some (JsonDoc ∅) |}
             example_weights ∅); reflexivity.
  - apply (restart_missing_key {[ "checksum" := PBool false ]} []
             {[ dir_good := {| model_h5 := Some example_weights;
                               ckpt_info_json := Some (JsonDoc ∅) |} ]}
             {| model_h5 := Some example_weights;
                ckpt_info_json := Some (JsonDoc ∅) |}
             example_weights ∅); try reflexivity. now left.
Defined.

(** The decimal rendering of a number does not start with an underscore. *)
Lemma pretty_N_go_no_underscore (x : N) (s : string) :
  (forall s', s <> String "_" s') ->
  forall s', pretty_N_go x s <> String "_" s'.
Proof.
  revert s. induction (N.lt_wf_0 x) as [x _ IH]. intros s Hs.
  destruct (N.eq_dec x 0%N) as [->|Hx]; [now rewrite pretty_N_go_0|].
  rewrite pretty_N_go_step by lia.
  apply IH; [apply N.div_lt; lia|].
  intros s' [= E _]. revert E. unfold pretty_N_char.
  repeat case_match; discriminate.
Qed.

Lemma checksum_file_not_mark contents : checksum_file contents <> "__DISABLED__".
Proof.
  rewrite checksum_file_crc32.
  pose proof (crc32_range contents 0) as Hr.
  destruct (zlib.crc32 contents 0) as [|p|p]; [discriminate| |lia].
  cbn. unfold pretty, pretty_positive, pretty, pretty_N.
  case_decide; [discriminate|].
  apply pretty_N_go_no_underscore. discriminate.
Qed.

(** X11. A snapshot written with checksumming off records the mark
    "__DISABLED__" instead of a checksum.  A restart that does not disable
    checksumming never accepts it, whatever the weights: it raises and loads
    nothing. *)
Theorem restart_rejects_unchecked_snapshot (gParameters : gmap string pyval)
  (model : list byte) (fs : gmap string directory) (d : directory)
  (w : list byte) (J : gmap string pyval) :
  disabled gParameters "restart" = false ->
  disabled gParameters "checksum" = false ->
  fs !! dir_good = Some d ->
  model_h5 d = Some w ->
  ckpt_info_json d = Some (JsonDoc J) ->
  J !! "checksum" = Some (PStr "__DISABLED__") ->
  exists e, restart gParameters model fs = (Raise e, model).
Proof.
  intros Hr Hc Hd Hw HJ Hck. eexists.
  eapply restart_on_mismatch; try eassumption.
  unfold str_ne. apply negb_true_iff, String.eqb_neq, checksum_file_not_mark.
Qed.

Lemma restart_rejects_unchecked_snapshot_witness :
  exists e,
    restart ∅ []
      {[ dir_good := {| model_h5 := Some example_weights;
                        ckpt_info_json :=
                          Some (JsonDoc {[ "checksum" := PStr "__DISABLED__" ]}) |} ]}
    = (Raise e, []).
Proof.
  apply (restart_rejects_unchecked_snapshot ∅ []
           {[ dir_good := {| model_h5 := Some example_weights;
                             ckpt_info_json :=
                               Some (JsonDoc {[ "checksum" := PStr "__DISABLED__" ]}) |} ]}
           {| model_h5 := Some example_weights;
              ckpt_info_json :=
                Some (JsonDoc {[ "checksum" := PStr "__DISABLED__" ]}) |}
           example_weights {[ "checksum" := PStr "__DISABLED__" ]});
    reflexivity.
Defined.

End RestartMore.

(** ** More on the snapshot writer *)

Section WriterMore.

Import CandleCheckpointCallback.
Local Open Scope ckpt_scope.

Ltac dir_lookup :=
  repeat first
    [ rewrite lookup_insert_eq
    | rewrite lookup_delete_eq
    | rewrite lookup_insert_ne by (first [assumption | apply not_eq_sym; assumption])
    | rewrite lookup_delete_ne by (first [assumption | apply not_eq_sym; assumption]) ].

Ltac dir_side :=
  cbn [fs push self trace]; dir_lookup; first [eassumption | reflexivity].

Lemma mbind_raise {A B} (m : M A) (k : A -> M B) st e st' :
  m st = (Raise e, st') -> mbind m k st = (Raise e, st').
Proof. intros H. unfold mbind. now rewrite H. Qed.

Lemma time_elapsed_fails last now :
  stamp_ok last = false -> exists e, time_elapsed last now = Raise e.
Proof.
  destruct last as [[]|]; try discriminate; intros _; eexists; reflexivity.
Qed.

(** [write_model] stops with an exception when [checksum_file] is handed no
    logger, or [timestamp_last] is a configured value that is not [None]:
    the weights are in ckpt-work by then, the descriptor is not. *)
Lemma write_model_fails dir epoch now st dw :
  fs st !! dir = Some dw ->
  (truthy (checksum_enabled (self st)) = true /\ logger (self st) = None)
  \/ stamp_ok (timestamp_last (self st)) = false ->
  exists e s' f1 f2,
    write_model dir epoch now st
    = (Raise e, {| self := s'; fs := f2; trace := f1 :: fs st :: trace st |})
    /\ best_stat_last s' = best_stat_last (self st)
    /\ checksum_enabled s' = checksum_enabled (self st)
    /\ f2 !! dir = Some {| model_h5 := Some (model (self st));
                           ckpt_info_json := ckpt_info_json dw |}
    /\ (forall k, k <> dir -> f1 !! k = fs st !! k /\ f2 !! k = fs st !! k).
Proof.
  intros Hd Hbad. destruct st as [s f t]. cbn [self fs trace] in *.
  unfold write_model, model_save, checksum, write_json.
  unfold mbind, get_self, get_fs, put_fs, put_self, lift, raise, push, with_self.
  cbn [self fs trace]. rewrite Hd. cbn [self fs trace].
  unfold checksum_file_at, read_model_h5, logger_info.
  destruct (truthy (checksum_enabled s)) eqn:Hc; cbn [self fs trace].
  - rewrite lookup_insert_eq. cbn [model_h5].
    destruct (logger s) as [l|] eqn:Hl.
    + destruct Hbad as [[_ Hn]|Hts]; [discriminate|].
      destruct (time_elapsed_fails _ now Hts) as [e He].
      cbn [self fs trace cksum_model set_cksum_model timestamp_last].
      rewrite He. do 4 eexists. split; [reflexivity|].
      split; [reflexivity|]. split; [reflexivity|].
      split; [apply lookup_insert_eq|].
      intros k Hk. rewrite !lookup_insert_ne by congruence. auto.
    + do 4 eexists. split; [reflexivity|].
      split; [reflexivity|]. split; [reflexivity|].
      split; [apply lookup_insert_eq|].
      intros k Hk. rewrite !lookup_insert_ne by congruence. auto.
  - destruct Hbad as [[Hn _]|Hts]; [discriminate|].
    destruct (time_elapsed_fails _ now Hts) as [e He].
    cbn [self fs trace cksum_model set_cksum_model timestamp_last].
    rewrite He. do 4 eexists. split; [reflexivity|].
    split; [reflexivity|]. split; [reflexivity|].
    split; [apply lookup_insert_eq|].
    intros k Hk. rewrite !lookup_insert_ne by congruence. auto.
Qed.

Lemma with_work_facts st :
  self (with_work st) = self st
  /\ is_Some (fs (with_work st) !! dir_work)
  /\ (forall k, k <> dir_work -> fs (with_work st) !! k = fs st !! k)
  /\ (forall s, s ∈ all_states (with_work st) ->
        s ∈ all_states st \/ s = fs (with_work st)).
Proof.
  unfold with_work. destruct (fs st !! dir_work) as [dw|] eqn:Hw.
  - repeat split; eauto.
  - cbn [push self fs]. repeat split.
    + rewrite lookup_insert_eq. eauto.
    + intros k Hk. now rewrite lookup_insert_ne.
    + unfold all_states. cbn [fs trace]. intros s Hs.
      apply elem_of_cons in Hs as [->|Hs]; auto.
Qed.

Lemma on_epoch_end_with_work epoch logs now st :
  on_epoch_end epoch logs now st = on_epoch_end epoch logs now (with_work st).
Proof.
  unfold with_work. destruct (fs st !! dir_work) eqn:Hw; [reflexivity|].
  now apply on_epoch_end_makedirs.
Qed.

(** An epoch that is not saved: nothing happens after ckpt-work is made. *)
Lemma no_save_state epoch logs now st r :
  (forall f t, save_check logs epoch {| self := self st; fs := f; trace := t |}
               = (r, {| self := self st; fs := f; trace := t |})) ->
  r <> Ok true ->
  on_epoch_end epoch logs now st
  = (match r with Raise e => Raise e | Ok _ => Ok tt end, with_work st).
Proof.
  intros Hsc Hr. rewrite on_epoch_end_with_work.
  destruct (with_work_facts st) as (Hself & [dw Hw] & _).
  destruct (with_work st) as [s f t]. cbn [self fs] in *. subst s.
  unfold on_epoch_end.
  erewrite mbind_ok by (eapply os_path_exists_some; exact Hw).
  erewrite mbind_ok by reflexivity.
  destruct r as [[]|e]; [congruence| |].
  - erewrite mbind_ok by apply Hsc. reflexivity.
  - erewrite mbind_raise by apply Hsc. reflexivity.
Qed.

(** A save event that goes through, from any disk. *)
Lemma save_event_any st epoch logs now s1 :
  (forall f t, save_check logs epoch {| self := self st; fs := f; trace := t |}
               = (Ok true, {| self := s1; fs := f; trace := t |})) ->
  clean s1 = clean (self st) ->
  (truthy (checksum_enabled s1) = true -> is_Some (logger s1)) ->
  stamp_ok (timestamp_last s1) = true ->
  exists st',
    on_epoch_end epoch logs now st = (Ok tt, st')
    /\ self st' = set_timestamp_last now (set_cksum_model (cksum_of s1) s1)
    /\ fs st' !! dir_good = Some (written s1 epoch now)
    /\ (forall s, s ∈ all_states st' ->
          s ∈ all_states st
          \/ s !! dir_good = fs st !! dir_good
          \/ s !! dir_good = None
          \/ s !! dir_good = Some (written s1 epoch now)).
Proof.
  intros Hsc Hcl Hlog Hts. rewrite on_epoch_end_with_work.
  destruct (with_work_facts st) as (Hself & [dw Hw] & Hother & Hstates).
  destruct dirs_distinct as (Hwg & _ & _).
  rewrite <- Hself in Hsc, Hcl.
  destruct (save_event_from_work (with_work st) epoch logs now dw s1 Hw Hsc Hcl
              Hlog Hts)
    as (st' & Hrun & Hg & _ & _ & Hall & _ & Hs).
  exists st'. repeat (split; [assumption|]).
  intros s Hin. rewrite <- (Hother dir_good) by congruence.
  destruct (Hall s Hin) as [H|[H|[[H _]|H]]]; auto.
  destruct (Hstates s H) as [H'| ->]; auto.
Qed.

(** A save event whose write fails, from any disk: the weights are left in
    ckpt-work and nothing else on the disk has changed. *)
Lemma save_event_fails st epoch logs now s1 :
  (forall f t, save_check logs epoch {| self := self st; fs := f; trace := t |}
               = (Ok true, {| self := s1; fs := f; trace := t |})) ->
  (truthy (checksum_enabled s1) = true /\ logger s1 = None)
  \/ stamp_ok (timestamp_last s1) = false ->
  exists e st',
    on_epoch_end epoch logs now st = (Raise e, st')
    /\ best_stat_last (self st') = best_stat_last s1
    /\ checksum_enabled (self st') = checksum_enabled s1
    /\ (d ← fs st' !! dir_work; model_h5 d) = Some (model s1)
    /\ (forall k, k <> dir_work -> fs st' !! k = fs st !! k)
    /\ (forall s, s ∈ all_states st' ->
          s ∈ all_states st \/ s !! dir_good = fs st !! dir_good).
Proof.
  intros Hsc Hbad. rewrite on_epoch_end_with_work.
  destruct (with_work_facts st) as (Hself & [dw Hw] & Hother & Hstates).
  destruct dirs_distinct as (Hwg & _ & _).
  rewrite <- Hself in Hsc.
  destruct (with_work st) as [s f t]. cbn [self fs trace] in *.
  destruct (write_model_fails dir_work epoch now
              {| self := s1; fs := f; trace := t |} dw Hw Hbad)
    as (e & s' & f1 & f2 & Hwm & Hb & Hc & Hf2 & Hfr).
  cbn [self fs trace] in *.
  exists e. eexists. split.
  { unfold on_epoch_end.
    erewrite mbind_ok by (eapply os_path_exists_some; exact Hw).
    erewrite mbind_ok by reflexivity.
    erewrite mbind_ok by apply Hsc. cbn [negb].
    erewrite mbind_raise by exact Hwm. reflexivity. }
  cbn [self fs trace all_states].
  split; [exact Hb|]. split; [exact Hc|].
  split; [now rewrite Hf2|].
  split.
  { intros k Hk. rewrite <- (Hother k Hk). now apply Hfr. }
  intros s0 Hin. rewrite <- (Hother dir_good) by congruence.
  apply elem_of_cons in Hin as [->|Hin];
    [right; apply Hfr; congruence|].
  apply elem_of_cons in Hin as [->|Hin];
    [right; apply Hfr; congruence|].
  destruct (Hstates s0 Hin) as [H| ->]; auto.
Qed.

(** What a call of [on_epoch_end] does once [save_check] has accepted. *)
Lemma save_event_cases st epoch logs now s1 :
  (forall f t, save_check logs epoch {| self := self st; fs := f; trace := t |}
               = (Ok true, {| self := s1; fs := f; trace := t |})) ->
  clean s1 = clean (self st) ->
  (exists st',
     on_epoch_end epoch logs now st = (Ok tt, st')
     /\ self st' = set_timestamp_last now (set_cksum_model (cksum_of s1) s1)
     /\ fs st' !! dir_good = Some (written s1 epoch now)
     /\ (forall s, s ∈ all_states st' ->
           s ∈ all_states st
           \/ s !! dir_good = fs st !! dir_good
           \/ s !! dir_good = None
           \/ s !! dir_good = Some (written s1 epoch now)))
  \/ (exists e st',
        on_epoch_end epoch logs now st = (Raise e, st')
        /\ best_stat_last (self st') = best_stat_last s1
        /\ checksum_enabled (self st') = checksum_enabled s1
        /\ (d ← fs st' !! dir_work; model_h5 d) = Some (model s1)
        /\ (forall k, k <> dir_work -> fs st' !! k = fs st !! k)
        /\ (forall s, s ∈ all_states st' ->
              s ∈ all_states st \/ s !! dir_good = fs st !! dir_good)).
Proof.
  intros Hsc Hcl.
  assert (Hdec : ((truthy (checksum_enabled s1) = true -> is_Some (logger s1))
                  /\ stamp_ok (timestamp_last s1) = true)
                 \/ ((truthy (checksum_enabled s1) = true /\ logger s1 = None)
                     \/ stamp_ok (timestamp_last s1) = false)).
  { destruct (stamp_ok (timestamp_last s1)); [|auto].
    destruct (truthy (checksum_enabled s1));
      [|left; split; [discriminate|reflexivity]].
    destruct (logger s1); [left; eauto|right; left; auto]. }
  destruct Hdec as [[Hlog Hts]|Hbad]; [left|right].
  - now apply save_event_any.
  - now apply save_event_fails.
Qed.

(** X12. An epoch that [save_check] does not accept writes no snapshot:
    [on_epoch_end] returns, or passes on the exception of [save_check], with
    the callback, ckpt-good and ckpt-old exactly as they were; the only
    change it can make to the disk is an empty ckpt-work. *)
Theorem on_epoch_end_no_save (st : state) (epoch : Z)
  (logs : list (string * spec_float)) (now : datetime) :
  (save_check logs epoch st).1 <> Ok true ->
  exists st',
    on_epoch_end epoch logs now st
    = (match (save_check logs epoch st).1 with
       | Raise e => Raise e
       | Ok _ => Ok tt
       end, st')
    /\ self st' = self st
    /\ fs st' !! dir_good = fs st !! dir_good
    /\ fs st' !! dir_old = fs st !! dir_old
    /\ (fs st' = fs st
        \/ (fs st !! dir_work = None
            /\ fs st' = <[dir_work := empty_directory]> (fs st))).
Proof.
  intros Hno. exists (with_work st).
  destruct dirs_distinct as (Hwg & Hwo & _).
  destruct (with_work_facts st) as (Hself & _ & Hother & _).
  assert (Hrun : on_epoch_end epoch logs now st
    = (match (save_check logs epoch st).1 with
       | Raise e => Raise e
       | Ok _ => Ok tt
       end, with_work st)).
  { destruct st as [s f t]. cbn [self] in *.
    destruct (save_check_outcome logs epoch s)
      as [H|[(_ & _ & H)|[(v & _ & _ & _ & _ & H)|(_ & _ & _ & H)]]].
    - rewrite (H f t). cbn [fst]. now apply (no_save_state _ _ _ _ (Ok false)).
    - rewrite (H f t) in Hno. now destruct Hno.
    - rewrite (H f t) in Hno. now destruct Hno.
    - rewrite (H f t). cbn [fst].
      now apply (no_save_state _ _ _ _ (Raise _)). }
  split; [exact Hrun|]. split; [exact Hself|].
  split; [apply Hother; congruence|]. split; [apply Hother; congruence|].
  unfold with_work. destruct (fs st !! dir_work); [now left|right; now split].
Qed.

Lemma on_epoch_end_no_save_witness :
  exists st',
    on_epoch_end 5 [("loss", float_2)] example_now
      (with_self (set_best_stat_last float_1 (self example_save_state))
         example_save_state)
    = (Ok tt, st')
    /\ fs st' !! dir_good = Some example_good.
Proof.
  destruct (on_epoch_end_no_save
              (with_self (set_best_stat_last float_1 (self example_save_state))
                 example_save_state)
              5 [("loss", float_2)] example_now)
    as (st' & Hrun & _ & Hg & _).
  - vm_compute. discriminate.
  - exists st'. split; [exact Hrun|]. rewrite Hg. reflexivity.
Defined.

(** The three ways a call of [on_epoch_end] can go. *)
Lemma on_epoch_end_cases st epoch logs now :
  (exists r,
     r <> Ok true
     /\ on_epoch_end epoch logs now st
        = (match r with Raise e => Raise e | Ok _ => Ok tt end, with_work st))
  \/ (exists s1,
        model s1 = model (self st)
        /\ checksum_enabled s1 = checksum_enabled (self st)
        /\ ((exists st',
               on_epoch_end epoch logs now st = (Ok tt, st')
               /\ self st'
                  = set_timestamp_last now (set_cksum_model (cksum_of s1) s1)
               /\ fs st' !! dir_good = Some (written s1 epoch now)
               /\ (forall s, s ∈ all_states st' ->
                     s ∈ all_states st
                     \/ s !! dir_good = fs st !! dir_good
                     \/ s !! dir_good = None
                     \/ s !! dir_good = Some (written s1 epoch now)))
            \/ (exists e st',
                  on_epoch_end epoch logs now st = (Raise e, st')
                  /\ best_stat_last (self st') = best_stat_last s1
                  /\ checksum_enabled (self st') = checksum_enabled s1
                  /\ (d ← fs st' !! dir_work; model_h5 d) = Some (model s1)
                  /\ (forall k, k <> dir_work -> fs st' !! k = fs st !! k)
                  /\ (forall s, s ∈ all_states st' ->
                        s ∈ all_states st
                        \/ s !! dir_good = fs st !! dir_good)))).
Proof.
  destruct st as [s f t].
  destruct (save_check_outcome logs epoch s)
    as [H|[(_ & _ & H)|[(v & _ & _ & _ & _ & H)|(_ & _ & _ & H)]]].
  - left. exists (Ok false). split; [discriminate|].
    now apply (no_save_state _ _ _ _ (Ok false)).
  - right. exists s. split; [reflexivity|]. split; [reflexivity|].
    now apply save_event_cases.
  - right. exists (set_best_stat_last v s).
    split; [reflexivity|]. split; [reflexivity|].
    now apply save_event_cases.
  - left. eexists (Raise _). split; [discriminate|].
    now apply (no_save_state _ _ _ _ (Raise _)).
Qed.

(** X19. A save event that cannot be written.  When [save_check] accepts
    the epoch but the callback checksums and was constructed with
    [logger=None], or its [timestamp_last] was configured to a value other
    than [None], [on_epoch_end] raises: the weights are in ckpt-work, the
    rotation has not started, ckpt-good and ckpt-old are as they were, and the
    callback keeps the [best_stat_last] that [save_check] has just set. *)
Theorem on_epoch_end_write_fails (st : state) (epoch : Z)
  (logs : list (string * spec_float)) (now : datetime) :
  (save_check logs epoch st).1 = Ok true ->
  (truthy (checksum_enabled (self st)) = true /\ logger (self st) = None)
  \/ stamp_ok (timestamp_last (self st)) = false ->
  exists e st',
    on_epoch_end epoch logs now st = (Raise e, st')
    /\ (d ← fs st' !! dir_work; model_h5 d) = Some (model (self st))
    /\ fs st' !! dir_good = fs st !! dir_good
    /\ fs st' !! dir_old = fs st !! dir_old
    /\ best_stat_last (self st')
       = best_stat_last (self (save_check logs epoch st).2).
Proof.
  intros Hsave Hbad.
  destruct dirs_distinct as (Hwg & Hwo & _).
  destruct (save_check_frame logs epoch st true Hsave)
    as (s1 & Hsc & Hm & Hce & Hcl & Hlg & Htl).
  rewrite <- Hce, <- Hlg, <- Htl in Hbad.
  destruct (save_event_fails st epoch logs now s1 Hsc Hbad)
    as (e & st' & Hrun & Hb & _ & Hw & Hother & _).
  exists e, st'. split; [exact Hrun|].
  split; [now rewrite Hw, Hm|].
  split; [apply Hother; congruence|]. split; [apply Hother; congruence|].
  rewrite Hb. destruct st as [s f t]. cbn [self] in Hsc.
  now rewrite (Hsc f t).
Qed.

Lemma on_epoch_end_write_fails_witness :
  exists e st',
    on_epoch_end 5 [("loss", float_1)] example_now silent_save_state
    = (Raise e, st')
    /\ (d ← fs st' !! dir_work; model_h5 d) = Some corrupted_weights
    /\ fs st' !! dir_good = Some example_good
    /\ best_stat_last (self st') = float_1.
Proof.
  destruct (on_epoch_end_write_fails silent_save_state 5 [("loss", float_1)]
              example_now)
    as (e & st' & Hrun & Hw & Hg & _ & Hb).
  - vm_compute. reflexivity.
  - left. split; reflexivity.
  - exists e, st'. split; [exact Hrun|]. split; [exact Hw|].
    split; [exact Hg|]. rewrite Hb. reflexivity.
Defined.

(** The same for a configured "timestamp_last": the first save of a
    callback built from such a configuration fails in [write_json]. *)
Example on_epoch_end_stamped_check :
  (s ← scan_params stamped_params;
   Some (on_epoch_end 0 [] example_now (first_state s ∅)).1)
  = Some (Raise (TypeError
       "unsupported operand type(s) for -: 'datetime.datetime' and 'str'")).
Proof. vm_compute. reflexivity. Qed.

(** What [write_model] has put in the directory it leaves. *)
Lemma written_facts s epoch now :
  exists J,
    written s epoch now
    = {| model_h5 := Some (model s); ckpt_info_json := Some (JsonDoc J) |}
    /\ J !! "epoch" = Some (PInt epoch)
    /\ J !! "checksum"
       = Some (PStr (if truthy (checksum_enabled s)
                     then checksum_file (model s) else "__DISABLED__"))
    /\ J !! "timestamp" = Some (PStr (dt_text now)).
Proof.
  eexists. split; [reflexivity|]. apply descriptor_lookups.
Qed.

(** One call of [on_epoch_end], whatever it does: each new state of the
    disk has ckpt-good as before, absent, or freshly and fully written. *)
Lemma on_epoch_end_states st epoch logs now :
  checksum_enabled (self (on_epoch_end epoch logs now st).2)
  = checksum_enabled (self st)
  /\ forall s, s ∈ all_states (on_epoch_end epoch logs now st).2 ->
       s ∈ all_states st
       \/ s !! dir_good = fs st !! dir_good
       \/ s !! dir_good = None
       \/ exists s1, model s1 = model (self st)
                     /\ checksum_enabled s1 = checksum_enabled (self st)
                     /\ s !! dir_good = Some (written s1 epoch now).
Proof.
  destruct dirs_distinct as (Hwg & _ & _).
  destruct (with_work_facts st) as (Hself & _ & Hother & Hstates).
  destruct (on_epoch_end_cases st epoch logs now)
    as [(r & _ & ->)
       |(s1 & Hm & Hce & [(st' & -> & Hs & _ & Hall)
                         |(e & st' & -> & _ & Hc & _ & _ & Hall)])];
    cbn [snd].
  - split; [now rewrite Hself|].
    intros s Hs. destruct (Hstates s Hs) as [H| ->]; [now left|right; left].
    apply Hother. congruence.
  - split; [now rewrite Hs|].
    intros s Hin. destruct (Hall s Hin) as [?|[?|[?|?]]]; eauto 10.
  - split; [congruence|].
    intros s Hin. destruct (Hall s Hin) as [?|?]; auto.
Qed.

(** X14. Over a whole training run, the weights changing from epoch to
    epoch, whatever the epochs bring (saves, epochs skipped, an exception that
    ends the run): in every state the disk passes through, ckpt-good is what
    it was in some state before the run, or absent, or the snapshot of one of
    the run's epochs, fully written: exactly the weights the model had at that
    epoch, with a descriptor giving that epoch, its time and the checksum of
    these weights (the mark "__DISABLED__" when checksumming is off).  An
    interruption at any point never leaves a partial ckpt-good. *)
Theorem fit_good_never_partial (epochs : list epoch_end) (st : state) :
  Forall
    (fun s : gmap string directory =>
       (exists s0, s0 ∈ all_states st /\ s !! dir_good = s0 !! dir_good)
       \/ s !! dir_good = None
       \/ (exists e J,
             e ∈ epochs
             /\ s !! dir_good
                = Some {| model_h5 := Some (ep_weights e);
                          ckpt_info_json := Some (JsonDoc J) |}
             /\ J !! "epoch" = Some (PInt (ep_epoch e))
             /\ J !! "checksum"
                = Some (PStr (if truthy (checksum_enabled (self st))
                              then checksum_file (ep_weights e)
                              else "__DISABLED__"))
             /\ J !! "timestamp" = Some (PStr (dt_text (ep_now e)))))
    (all_states (fit epochs st).2).
Proof.
  revert st. induction epochs as [|e epochs IH]; intros st.
  { apply Forall_forall. intros s Hs. left. eauto. }
  cbn [fit].
  destruct (on_epoch_end_states
              (with_self (set_model (ep_weights e) (self st)) st)
              (ep_epoch e) (ep_logs e) (ep_now e)) as (Hce & Hstep).
  cbn [with_self self fs trace set_model checksum_enabled model] in Hce, Hstep.
  assert (Hone : forall s,
    s ∈ all_states (on_epoch_end (ep_epoch e) (ep_logs e) (ep_now e)
                      (with_self (set_model (ep_weights e) (self st)) st)).2 ->
    (exists s0, s0 ∈ all_states st /\ s !! dir_good = s0 !! dir_good)
    \/ s !! dir_good = None
    \/ (exists e' J,
          e' ∈ e :: epochs
          /\ s !! dir_good
             = Some {| model_h5 := Some (ep_weights e');
                       ckpt_info_json := Some (JsonDoc J) |}
          /\ J !! "epoch" = Some (PInt (ep_epoch e'))
          /\ J !! "checksum"
             = Some (PStr (if truthy (checksum_enabled (self st))
                           then checksum_file (ep_weights e')
                           else "__DISABLED__"))
          /\ J !! "timestamp" = Some (PStr (dt_text (ep_now e'))))).
  { intros s Hs. destruct (Hstep s Hs) as [H|[H|[H|(s1 & Hm & Hc & H)]]].
    - left. exists s. split; [exact H|reflexivity].
    - left. exists (fs st). split; [apply list_elem_of_here|exact H].
    - right. left. exact H.
    - right. right.
      destruct (written_facts s1 (ep_epoch e) (ep_now e))
        as (J & HJ & Hep & Hck & Hts).
      rewrite Hm in HJ, Hck. rewrite Hc in Hck. rewrite HJ in H.
      exists e, J. split; [apply list_elem_of_here|auto]. }
  destruct (on_epoch_end (ep_epoch e) (ep_logs e) (ep_now e)
              (with_self (set_model (ep_weights e) (self st)) st))
    as [[[]|x] st'] eqn:Hrun; cbn [snd] in *.
  - specialize (IH st'). rewrite Hce in IH.
    apply Forall_forall. intros s Hs.
    destruct (proj1 (Forall_forall _ _) IH s Hs)
      as [(s0 & Hs0 & E)|[E|(e' & J & He' & Hrest)]].
    + rewrite E. apply Hone, Hs0.
    + right. left. exact E.
    + right. right. exists e', J.
      split; [apply list_elem_of_further, He'|exact Hrest].
  - apply Forall_forall. exact Hone.
Qed.

(** X15. Round trip.  Let the callback read "checksum" from the same
    configuration that [restart] is later given, with restart not disabled
    there, have a logger if it checksums, and a [timestamp_last] that is unset
    or the time of an earlier descriptor.  After a save event, [restart] on
    the disk it leaves returns the descriptor of that event, with its epoch
    and timestamp, and loads exactly the weights the callback's model had,
    whatever the checksum setting. *)
Theorem save_then_restart (gParameters : gmap string pyval) (st : state)
  (epoch : Z) (logs : list (string * spec_float)) (now : datetime)
  (model2 : list byte) :
  checksum_enabled (self st) = param gParameters "checksum" (PBool true) ->
  disabled gParameters "restart" = false ->
  (truthy (checksum_enabled (self st)) = true -> is_Some (logger (self st))) ->
  stamp_ok (timestamp_last (self st)) = true ->
  (save_check logs epoch st).1 = Ok true ->
  exists st' D,
    on_epoch_end epoch logs now st = (Ok tt, st')
    /\ restart gParameters model2 (fs st') = (Ok (Some D), model (self st))
    /\ D !! "epoch" = Some (PInt epoch)
    /\ D !! "timestamp" = Some (PStr (dt_text now)).
Proof.
  intros Hck Hr Hlog Hstamp Hsave.
  destruct (save_check_frame logs epoch st true Hsave)
    as (s1 & Hsc & Hm & Hce & Hcl & Hlg & Htl).
  rewrite <- Hce, <- Hlg in Hlog. rewrite <- Htl in Hstamp.
  destruct (save_event_any st epoch logs now s1 Hsc Hcl Hlog Hstamp)
    as (st' & Hrun & _ & Hg & _).
  destruct (descriptor_lookups (set_cksum_model (cksum_of s1) s1) (cksum_of s1)
              epoch now (elapsed_of s1 now)) as (Hep & Hcs & Hts).
  exists st'. eexists. split; [exact Hrun|].
  split; [|split; [exact Hep|exact Hts]].
  rewrite <- Hm.
  eapply restart_loads; try eassumption; try reflexivity; eauto.
  rewrite Hcs. unfold cksum_of.
  destruct (disabled gParameters "checksum") eqn:Hd; [now left|right].
  assert (Ht : truthy (checksum_enabled s1) = true).
  { rewrite Hce, Hck.
    unfold param, disabled in *. destruct (gParameters !! "checksum");
      [now apply negb_false_iff in Hd|reflexivity]. }
  now rewrite Ht.
Qed.

Lemma save_then_restart_witness :
  exists st' D,
    on_epoch_end 5 [("loss", float_1)] example_now example_save_state = (Ok tt, st')
    /\ restart example_params [] (fs st') = (Ok (Some D), corrupted_weights)
    /\ D !! "epoch" = Some (PInt 5).
Proof.
  destruct (save_then_restart example_params example_save_state 5
              [("loss", float_1)] example_now [])
    as (st' & D & Hrun & Hre & Hep & _).
  - reflexivity.
  - reflexivity.
  - intros _. eexists. reflexivity.
  - reflexivity.
  - vm_compute. reflexivity.
  - exists st', D. auto.
Defined.

Lemma descriptor_fields s cksum epoch now elapsed :
  descriptor s cksum epoch now elapsed !! "best_stat_last"
  = Some (PFloat (best_stat_last s))
  /\ descriptor s cksum epoch now elapsed !! "save_best_stat"
     = Some (PStr (save_best_stat s))
  /\ descriptor s cksum epoch now elapsed !! "save_best_only"
     = Some (save_best_only s)
  /\ descriptor s cksum epoch now elapsed !! "model_file" = Some (PStr "model.h5")
  /\ descriptor s cksum epoch now elapsed !! "metadata" = Some (metadata s)
  /\ descriptor s cksum epoch now elapsed !! "time_elapsed" = Some elapsed.
Proof. unfold descriptor. repeat split; by simplify_map_eq. Qed.

(** X16. What a save event records, for a callback that has a logger if it
    checksums and whose [timestamp_last] is unset or the time of an earlier
    descriptor.  The descriptor left in ckpt-good holds the callback's
    [best_stat_last] as it is after the event: under best-only saving the
    metric value that was just accepted, otherwise the unchanged one.  Its
    [time_elapsed] is "__FIRST__" when [timestamp_last] was unset, else the
    seconds since the time it held, and the callback remembers the time of
    this descriptor.  The configured metadata and policy are copied. *)
Theorem saved_descriptor (st : state) (epoch : Z)
  (logs : list (string * spec_float)) (now : datetime) :
  (save_check logs epoch st).1 = Ok true ->
  (truthy (checksum_enabled (self st)) = true -> is_Some (logger (self st))) ->
  stamp_ok (timestamp_last (self st)) = true ->
  exists st' d D,
    on_epoch_end epoch logs now st = (Ok tt, st')
    /\ fs st' !! dir_good = Some d
    /\ ckpt_info_json d = Some (JsonDoc D)
    /\ D !! "best_stat_last" = Some (PFloat (best_stat_last (self st')))
    /\ best_stat_last (self st')
       = (if truthy (save_best_only (self st))
          then default (best_stat_last (self st))
                 (dict_get logs (save_best_stat (self st)))
          else best_stat_last (self st))
    /\ D !! "time_elapsed"
       = Some (match timestamp_last (self st) with
               | StampTime last =>
                   PFloat (total_seconds (dt_micros now - dt_micros last))
               | StampValue _ => PStr "__FIRST__"
               end)
    /\ timestamp_last (self st') = StampTime now
    /\ D !! "metadata" = Some (metadata (self st))
    /\ D !! "save_best_only" = Some (save_best_only (self st))
    /\ D !! "save_best_stat" = Some (PStr (save_best_stat (self st)))
    /\ D !! "model_file" = Some (PStr "model.h5").
Proof.
  intros Hsave Hlog Hstamp. destruct st as [s f t]. cbn [self] in *.
  destruct (save_check_outcome logs epoch s)
    as [H|[(Hb & _ & H)|[(v & Hb & _ & Hv & _ & H)|(_ & _ & _ & H)]]];
    try (rewrite (H f t) in Hsave; discriminate).
  - destruct (save_event_any {| self := s; fs := f; trace := t |}
                epoch logs now s H eq_refl Hlog Hstamp)
      as (st' & Hrun & Hs & Hg & _).
    destruct (descriptor_fields (set_cksum_model (cksum_of s) s) (cksum_of s)
                epoch now (elapsed_of s now)) as (F1 & F2 & F3 & F4 & F5 & F6).
    exists st'. do 2 eexists. split; [exact Hrun|]. split; [exact Hg|].
    split; [reflexivity|]. rewrite Hs, Hb. cbn in *. auto 12.
  - destruct (save_event_any {| self := s; fs := f; trace := t |}
                epoch logs now _ H eq_refl Hlog Hstamp)
      as (st' & Hrun & Hs & Hg & _).
    destruct (descriptor_fields
                (set_cksum_model (cksum_of (set_best_stat_last v s))
                   (set_best_stat_last v s))
                (cksum_of (set_best_stat_last v s)) epoch now
                (elapsed_of (set_best_stat_last v s) now))
      as (F1 & F2 & F3 & F4 & F5 & F6).
    exists st'. do 2 eexists. split; [exact Hrun|]. split; [exact Hg|].
    split; [reflexivity|]. rewrite Hs, Hb, Hv. cbn in *. auto 12.
Qed.

Lemma saved_descriptor_witness :
  exists st' d D,
    on_epoch_end 5 [("loss", float_1)] example_now example_save_state = (Ok tt, st')
    /\ fs st' !! dir_good = Some d
    /\ ckpt_info_json d = Some (JsonDoc D)
    /\ D !! "best_stat_last" = Some (PFloat float_1)
    /\ D !! "time_elapsed" = Some (PStr "__FIRST__").
Proof.
  destruct (saved_descriptor example_save_state 5 [("loss", float_1)] example_now)
    as (st' & d & D & Hrun & Hg & HJ & Hb & Hv & Ht & _).
  - vm_compute. reflexivity.
  - intros _. eexists. reflexivity.
  - reflexivity.
  - exists st', d, D. rewrite Hv in Hb. auto.
Defined.

Lemma on_epoch_end_tracks_best st epoch logs now st' :
  on_epoch_end epoch logs now st = (Ok tt, st') ->
  descriptor_tracks_best st ->
  descriptor_tracks_best st'.
Proof.
  intros Hrun Hst.
  destruct dirs_distinct as (Hwg & _ & _).
  destruct (with_work_facts st) as (Hself & _ & Hother & _).
  destruct (on_epoch_end_cases st epoch logs now)
    as [(r & _ & E)
       |(s1 & _ & _ & [(st1 & E & Hs & Hg & _)|(e & st1 & E & _)])];
    rewrite E in Hrun.
  - injection Hrun as _ <-.
    intros d D Hd HJ. rewrite Hself. rewrite Hother in Hd by congruence.
    eapply Hst; eassumption.
  - injection Hrun as <-.
    intros d D Hd HJ. rewrite Hg in Hd. injection Hd as <-.
    injection HJ as <-. rewrite Hs.
    exact (proj1 (descriptor_fields (set_cksum_model (cksum_of s1) s1)
                    (cksum_of s1) epoch now (elapsed_of s1 now))).
  - discriminate.
Qed.

(** X17. Over a training run that completes, the weights changing from
    epoch to epoch, the descriptor in ckpt-good keeps recording the
    callback's current [best_stat_last]: if it did before the run (or there
    was no ckpt-good), it does after it, so that what [restart] hands back is
    the threshold the run had reached. *)
Theorem fit_descriptor_tracks_best (epochs : list epoch_end) (st : state) :
  (fit epochs st).1 = Ok tt ->
  descriptor_tracks_best st ->
  descriptor_tracks_best (fit epochs st).2.
Proof.
  revert st. induction epochs as [|e epochs IH]; intros st Hok Hst;
    [exact Hst|].
  cbn [fit] in *.
  destruct (on_epoch_end (ep_epoch e) (ep_logs e) (ep_now e)
              (with_self (set_model (ep_weights e) (self st)) st))
    as [[[]|x] st'] eqn:Hrun; [|discriminate].
  apply IH; [exact Hok|].
  eapply on_epoch_end_tracks_best; [exact Hrun|].
  intros d D Hd HJ. exact (Hst d D Hd HJ).
Qed.

Lemma fit_descriptor_tracks_best_witness :
  descriptor_tracks_best (fit example_run (first_state example_self ∅)).2.
Proof.
  apply (fit_descriptor_tracks_best example_run (first_state example_self ∅)).
  - vm_compute. reflexivity.
  - intros d D Hd. cbn in Hd. discriminate.
Defined.

End WriterMore.

(** X18. [restart] looks at ckpt-good only: two disks with the same
    ckpt-good give the same result, whatever ckpt-old and ckpt-work hold.
    When ckpt-good has no weights file it returns [None] without an
    exception, whatever the "restart" setting ("REQUIRED" included) and even
    if ckpt-old holds a complete snapshot. *)
Theorem restart_reads_only_good (gParameters : gmap string pyval)
  (model : list byte) (fs fs' : gmap string directory) :
  (fs !! dir_good = fs' !! dir_good ->
   restart gParameters model fs = restart gParameters model fs')
  /\ ((d ← fs !! dir_good; model_h5 d) = None ->
      restart gParameters model fs = (Ok None, model)).
Proof.
  split.
  - intros E. unfold restart, restart_json, checksum_file_at, read_model_h5. now rewrite E.
  - intros E. unfold restart. rewrite E.
    now destruct (disabled gParameters "restart").
Qed.

Lemma restart_reads_only_good_witness :
  restart {[ "restart" := PStr "REQUIRED" ]} [] {[ dir_old := example_good ]}
  = (Ok None, []).
Proof.
  apply (restart_reads_only_good {[ "restart" := PStr "REQUIRED" ]} []
           {[ dir_old := example_good ]} ∅).
  reflexivity.
Defined.
